(** * CCNotify: project resolution, hook classification and sound cache

    A shallow embedding of [src/ccnotify/notify.py].  Python values that
    come out of [json.load] are kept dynamically typed ([json]); the
    file system, the clock and the TTS backend are an explicit [World]
    threaded through a state-and-exception monad.

    Conventions of the embedding:
    - a Python [str] is a Rocq [string]; its characters are the code
      points 0..255, and the character classes ([str.isspace],
      [str.lower], the regex class [\w]) are Python's on that range;
    - JSON numbers and [time.time()] are integers (epoch seconds);
    - the logger is the module's [NoOpLogger]: logging calls are dropped. *)

From Stdlib Require Import String Ascii List ZArith Bool Lia DecimalString.
Import ListNotations.
Open Scope string_scope.

(* ------------------------------------------------------------------ *)
(** ** Python string operations *)

Module PyStr.

(** [s.startswith(p)] *)
Definition startswith (s p : string) : bool := String.prefix p s.

(** [needle in s] for two strings *)
Fixpoint contains (needle s : string) : bool :=
  String.prefix needle s
  || match s with
     | EmptyString => false
     | String _ t => contains needle t
     end.

(** a single character occurs in [s] *)
Fixpoint has_char (a : ascii) (s : string) : bool :=
  match s with
  | EmptyString => false
  | String c t => Ascii.eqb c a || has_char a t
  end.

(** [s[n:]] *)
Fixpoint drop (n : nat) (s : string) : string :=
  match n, s with
  | O, _ => s
  | S _, EmptyString => EmptyString
  | S k, String _ t => drop k t
  end.

(** [s[:n]] *)
Fixpoint take (n : nat) (s : string) : string :=
  match n, s with
  | O, _ => EmptyString
  | S _, EmptyString => EmptyString
  | S k, String c t => String c (take k t)
  end.

(** [s.split(sep)] for a one-character separator *)
Fixpoint split_on (sep : ascii) (s : string) : list string :=
  match s with
  | EmptyString => [EmptyString]
  | String c t =>
      if Ascii.eqb c sep then EmptyString :: split_on sep t
      else match split_on sep t with
           | [] => [String c EmptyString]
           | h :: r => String c h :: r
           end
  end.

(** [sep.join(l)] *)
Definition join (sep : string) (l : list string) : string := String.concat sep l.

(** [c.isspace()] on the code points below 256 *)
Definition is_space (c : ascii) : bool :=
  let n := nat_of_ascii c in
  (((9 <=? n) && (n <=? 13)) || ((28 <=? n) && (n <=? 32))
   || (n =? 133) || (n =? 160))%nat.

(** [s.lstrip()], [s.rstrip()], [s.strip()] *)
Fixpoint lstrip (s : string) : string :=
  match s with
  | EmptyString => EmptyString
  | String c t => if is_space c then lstrip t else s
  end.

Fixpoint rstrip (s : string) : string :=
  match s with
  | EmptyString => EmptyString
  | String c t =>
      match rstrip t with
      | EmptyString => if is_space c then EmptyString else String c EmptyString
      | r => String c r
      end
  end.

Definition strip (s : string) : string := rstrip (lstrip s).

(** no character of [p] is whitespace *)
Fixpoint no_space (p : string) : bool :=
  match p with
  | EmptyString => true
  | String c t => negb (is_space c) && no_space t
  end.

(** [s.split()]: the maximal runs of non-whitespace characters *)
Fixpoint split_ws (s : string) : list string :=
  match s with
  | EmptyString => []
  | String c t =>
      if is_space c then split_ws t
      else match t with
           | EmptyString => [String c EmptyString]
           | String c' _ =>
               if is_space c' then String c EmptyString :: split_ws t
               else match split_ws t with
                    | h :: r => String c h :: r
                    | [] => [String c EmptyString]
                    end
           end
  end.

(** [c.lower()] on the code points below 256 *)
Definition lower_char (c : ascii) : ascii :=
  let n := nat_of_ascii c in
  if (((65 <=? n) && (n <=? 90)) || ((192 <=? n) && (n <=? 214))
      || ((216 <=? n) && (n <=? 222)))%nat
  then ascii_of_nat (n + 32)%nat else c.

Fixpoint lower (s : string) : string :=
  match s with
  | EmptyString => EmptyString
  | String c t => String (lower_char c) (lower t)
  end.

(** [c.upper()] on the code points below 256 whose upper case is one
    code point below 256 *)
Definition upper_char (c : ascii) : ascii :=
  let n := nat_of_ascii c in
  if (((97 <=? n) && (n <=? 122)) || ((224 <=? n) && (n <=? 246))
      || ((248 <=? n) && (n <=? 254)))%nat
  then ascii_of_nat (n - 32)%nat else c.

(** [s.capitalize()] *)
Definition capitalize (s : string) : string :=
  match s with
  | EmptyString => EmptyString
  | String c t => String (upper_char c) (lower t)
  end.

(** [s.replace(a, b)] for two single characters *)
Fixpoint replace_char (a b : ascii) (s : string) : string :=
  match s with
  | EmptyString => EmptyString
  | String c t => String (if Ascii.eqb c a then b else c) (replace_char a b t)
  end.

End PyStr.
Import PyStr.

(* ------------------------------------------------------------------ *)
(** ** pathlib: the pure part *)

Module PurePath.

(** the components of a path string: empty components and [.] vanish *)
Definition segments (s : string) : list string :=
  filter (fun p => negb (String.eqb p EmptyString) && negb (String.eqb p "."))
         (split_on "/" s).

(** [Path(s).name] *)
Definition name (s : string) : string := last (segments s) EmptyString.

(** the root of a POSIX path: exactly two leading slashes are kept *)
Definition root (s : string) : list string :=
  match s with
  | String "/" (String "/" (String "/" _)) => ["/"]
  | String "/" (String "/" _) => ["//"]
  | String "/" _ => ["/"]
  | _ => []
  end.

(** [Path(s).parts] *)
Definition parts (s : string) : list string := root s ++ segments s.

End PurePath.

(* ------------------------------------------------------------------ *)
(** ** Project folder names *)

(** [decode_project_folder_name] *)
Definition decode_project_folder_name (folder_name : string) : option string :=
  if negb (startswith folder_name "-") then None
  else
    let parts := split_on "-" (drop 1 folder_name) in
    let path := "/" ++ join "/" parts in
    Some path.

(** the encoding that [decode_project_folder_name] undoes, worded as the
    specification words it (the encoder itself belongs to the tool that
    names the folders): the segments of the absolute path are joined with
    ['-'] and prefixed with the leading ['-'] marker *)
Definition encode_project_folder_name (path : string) : string :=
  "-" ++ join "-" (split_on "/" (drop 1 path)).

(* ------------------------------------------------------------------ *)
(** ** Dynamically typed values *)

Set Warnings "-register-all".

(** what [json.load] returns *)
Inductive json : Type :=
| JNull
| JBool (b : bool)
| JNum (n : Z)
| JStr (s : string)
| JArr (l : list json)
| JObj (d : list (string * json)).

(** a Python [dict] with string keys, in insertion order *)
Definition dict : Type := list (string * json).

Inductive exn : Type :=
| AttributeError
| TypeError
| KeyError
| OSError.

Inductive result (A : Type) : Type :=
| Ok (a : A)
| Raise (e : exn).
Arguments Ok {A} a.
Arguments Raise {A} e.

Definition rbind {A B} (r : result A) (k : A -> result B) : result B :=
  match r with
  | Ok a => k a
  | Raise e => Raise e
  end.

Notation "x <-- r ;; k" := (rbind r (fun x => k))
  (at level 61, r at next level, right associativity).

Module Py.

Fixpoint dict_get (k : string) (d : dict) : option json :=
  match d with
  | [] => None
  | (k', v) :: r => if String.eqb k k' then Some v else dict_get k r
  end.

Definition dict_has (k : string) (d : dict) : bool :=
  match dict_get k d with Some _ => true | None => false end.

(** [d[k] = v]: an existing key keeps its place, a new one goes last *)
Fixpoint dict_set (k : string) (v : json) (d : dict) : dict :=
  match d with
  | [] => [(k, v)]
  | (k', v') :: r =>
      if String.eqb k k' then (k', v) :: r else (k', v') :: dict_set k v r
  end.

(** the keys of a [dict] are pairwise distinct *)
Definition dict_wf (d : dict) : Prop := NoDup (map fst d).

(** [j == "s"] for a string literal *)
Definition eq_str (j : json) (s : string) : bool :=
  match j with JStr s' => String.eqb s' s | _ => false end.

(** truth value of [j] *)
Definition truthy (j : json) : bool :=
  match j with
  | JNull => false
  | JBool b => b
  | JNum n => negb (Z.eqb n 0)
  | JStr s => negb (String.eqb s EmptyString)
  | JArr l => match l with [] => false | _ => true end
  | JObj d => match d with [] => false | _ => true end
  end.

(** [j.get(k, default)] *)
Definition get (j : json) (k : string) (default : json) : result json :=
  match j with
  | JObj d => Ok (match dict_get k d with Some v => v | None => default end)
  | _ => Raise AttributeError
  end.

(** [j[k]] for a string [k] *)
Definition getitem (j : json) (k : string) : result json :=
  match j with
  | JObj d => match dict_get k d with Some v => Ok v | None => Raise KeyError end
  | _ => Raise TypeError
  end.

(** [j[k] = v] for a string [k] *)
Definition setitem (j : json) (k : string) (v : json) : result json :=
  match j with
  | JObj d => Ok (JObj (dict_set k v d))
  | _ => Raise TypeError
  end.

(** [k in j] for a string [k] *)
Definition contains_str (k : string) (j : json) : result bool :=
  match j with
  | JObj d => Ok (dict_has k d)
  | JArr l => Ok (existsb (fun x => eq_str x k) l)
  | JStr s => Ok (contains k s)
  | _ => Raise TypeError
  end.

(** the number behind [j] in arithmetic ([bool] is a subtype of [int]) *)
Definition as_num (j : json) : result Z :=
  match j with
  | JNum n => Ok n
  | JBool b => Ok (if b then 1 else 0)%Z
  | _ => Raise TypeError
  end.

End Py.

(* ------------------------------------------------------------------ *)
(** ** The world outside the process *)

(** a JSON document on disk *)
Inductive file_state : Type :=
| Missing                 (* the path does not exist *)
| Unreadable              (* it exists; [open] or [json.load] raises *)
| Parsed (j : json).      (* it exists and parses to [j] *)

(** what one call of the backend's [generate] does *)
Inductive synth_outcome : Type :=
| SynthRaises                      (* the model, the synthesis or the
                                      conversion raises before a file is
                                      opened *)
| SynthDone (pydub_missing : bool) (* the audio is produced and written;
                                      [import pydub] failed or not *)
| SynthTruncated (pydub_missing : bool).
                                   (* the file is opened for writing, then
                                      the export or the write raises: the
                                      file stays behind *)

Inductive event : Type :=
| EvGlob (session_file : string)
| EvAutoAdd (project_name : string)
| EvWriteReplacements
| EvSaveCache
| EvNotify (title : string) (message : json)
| EvGenerate (text : string) (file : string)
| EvPlay (file : string).

Record World : Type := mkWorld {
  cache_file : file_state;            (* CACHE_FILE *)
  cache_writable : bool;
  replacements_file : file_state;     (* REPLACEMENTS_FILE *)
  replacements_writable : bool;
  clock : nat -> Z;                   (* the n-th reading of [time.time()] *)
  ticks : nat;
  glob_projects : string -> option (list string);
      (* [glob.glob] of the session file under any folder of
         PROJECTS_DIR: the names of the folders holding a match, in
         order; [None] when it raises *)
  path_resolve : string -> option (list string);
      (* [Path(p).resolve().parts]; [None] when it raises *)
  sounds : list string;               (* the files present in SOUNDS_DIR *)
  synth : nat -> synth_outcome;       (* the n-th call of [generate] *)
  synth_calls : nat;
  trace : list event                  (* newest first *)
}.

Definition set_cache_file (f : file_state) (w : World) : World :=
  mkWorld f (cache_writable w) (replacements_file w) (replacements_writable w)
          (clock w) (ticks w) (glob_projects w) (path_resolve w)
          (sounds w) (synth w) (synth_calls w) (trace w).

Definition set_replacements_file (f : file_state) (w : World) : World :=
  mkWorld (cache_file w) (cache_writable w) f (replacements_writable w)
          (clock w) (ticks w) (glob_projects w) (path_resolve w)
          (sounds w) (synth w) (synth_calls w) (trace w).

Definition set_ticks (n : nat) (w : World) : World :=
  mkWorld (cache_file w) (cache_writable w) (replacements_file w)
          (replacements_writable w) (clock w) n (glob_projects w)
          (path_resolve w) (sounds w) (synth w) (synth_calls w) (trace w).

Definition set_sounds (l : list string) (w : World) : World :=
  mkWorld (cache_file w) (cache_writable w) (replacements_file w)
          (replacements_writable w) (clock w) (ticks w) (glob_projects w)
          (path_resolve w) l (synth w) (synth_calls w) (trace w).

Definition set_synth_calls (n : nat) (w : World) : World :=
  mkWorld (cache_file w) (cache_writable w) (replacements_file w)
          (replacements_writable w) (clock w) (ticks w) (glob_projects w)
          (path_resolve w) (sounds w) (synth w) n (trace w).

Definition set_trace (t : list event) (w : World) : World :=
  mkWorld (cache_file w) (cache_writable w) (replacements_file w)
          (replacements_writable w) (clock w) (ticks w) (glob_projects w)
          (path_resolve w) (sounds w) (synth w) (synth_calls w) t.

(** *** State and exceptions *)

Definition M (A : Type) : Type := World -> result A * World.

Definition ret {A} (a : A) : M A := fun w => (Ok a, w).

Definition bind {A B} (m : M A) (k : A -> M B) : M B :=
  fun w => match m w with
           | (Ok a, w') => k a w'
           | (Raise e, w') => (Raise e, w')
           end.

Definition raise {A} (e : exn) : M A := fun w => (Raise e, w).

(** [try: m except Exception: h] *)
Definition try_except {A} (m : M A) (h : M A) : M A :=
  fun w => match m w with
           | (Ok a, w') => (Ok a, w')
           | (Raise _, w') => h w'
           end.

Definition lift {A} (r : result A) : M A := fun w => (r, w).

(** running a computation from a world *)
Definition run {A} (m : M A) (w : World) : result A * World := m w.

Definition emit (e : event) : M unit :=
  fun w => (Ok tt, set_trace (e :: trace w) w).

Declare Scope py_scope.
Delimit Scope py_scope with py.
Notation "x <- m ;; k" := (bind m (fun x => k))
  (at level 61, m at next level, right associativity) : py_scope.
Notation "m ;;; k" := (bind m (fun _ => k))
  (at level 61, right associativity) : py_scope.
Open Scope py_scope.

(** [time.time()] *)
Definition time_time : M Z :=
  fun w => (Ok (clock w (ticks w)), set_ticks (S (ticks w)) w).

(* ------------------------------------------------------------------ *)
(** ** Project cache *)

Definition CACHE_EXPIRY_DAYS : Z := 7.

(** [load_project_cache] *)
Definition load_project_cache : M json :=
  fun w => match cache_file w with
           | Parsed j => (Ok j, w)
           | Unreadable => (Ok (JObj []), w)
           | Missing => (Ok (JObj []), w)
           end.

(** [save_project_cache] *)
Definition save_project_cache (cache : json) : M unit :=
  emit EvSaveCache ;;;
  fun w => if cache_writable w
           then (Ok tt, set_cache_file (Parsed cache) w)
           else (Ok tt, w).

(** [data.get('timestamp', 0)] as a number.  Times are whole seconds, and
    a number is one that a [float] can hold: beyond that range the
    subtraction of line 231 raises [OverflowError] in Python. *)
Definition entry_timestamp (data : json) : result Z :=
  match Py.get data "timestamp" (JNum 0) with
  | Raise e => Raise e
  | Ok ts => Py.as_num ts
  end.

(** the loop of [clean_old_cache_entries] over [cache.items()] *)
Fixpoint clean_loop (current_time expiry_seconds : Z) (items : dict)
         (cleaned_cache : dict) : result dict :=
  match items with
  | [] => Ok cleaned_cache
  | (session_id, data) :: rest =>
      match entry_timestamp data with
      | Raise e => Raise e
      | Ok t =>
          clean_loop current_time expiry_seconds rest
            (if (current_time - t <? expiry_seconds)%Z
             then Py.dict_set session_id data cleaned_cache
             else cleaned_cache)
      end
  end.

(** [clean_old_cache_entries] *)
Definition clean_old_cache_entries (cache : json) : M json :=
  current_time <- time_time ;;
  let expiry_seconds := (CACHE_EXPIRY_DAYS * 24 * 60 * 60)%Z in
  match cache with
  | JObj items =>
      match clean_loop current_time expiry_seconds items [] with
      | Ok cleaned_cache => ret (JObj cleaned_cache)
      | Raise e => raise e
      end
  | _ => raise AttributeError
  end.

Fixpoint is_prefix (p l : list string) : bool :=
  match p, l with
  | [], _ => true
  | _ :: _, [] => false
  | a :: p', b :: l' => String.eqb a b && is_prefix p' l'
  end.

(** the test of [is_cwd_under_project]: [project_path] is the cached
    value, of any type; a failure of [Path(...)] or of [resolve()] is
    caught and gives [False] *)
Definition under_project (w : World) (cwd : string) (project_path : json) : bool :=
  match project_path with
  | JStr p =>
      match path_resolve w cwd, path_resolve w p with
      | Some cwd_path, Some project_path_obj => is_prefix project_path_obj cwd_path
      | _, _ => false
      end
  | _ => false
  end.

(** [is_cwd_under_project] *)
Definition is_cwd_under_project (cwd : string) (project_path : json) : M bool :=
  fun w => (Ok (under_project w cwd project_path), w).

(* ------------------------------------------------------------------ *)
(** ** Replacements *)

Definition default_replacements : json :=
  JObj [("project_names", JObj [("replacements", JObj [])]);
        ("commands", JObj [("replacements", JObj [])]);
        ("patterns", JObj [("replacements", JArr [])])].

(** [load_replacements] *)
Definition load_replacements : M json :=
  fun w => match replacements_file w with
           | Parsed j => (Ok j, w)
           | Unreadable => (Ok default_replacements, w)
           | Missing => (Ok default_replacements, w)
           end.

(** [apply_project_name_replacement]; the first key that matches wins *)
Fixpoint first_ci_match (project_name : string) (items : dict) : option json :=
  match items with
  | [] => None
  | (original, replacement) :: rest =>
      if String.eqb (lower project_name) (lower original)
      then Some replacement
      else first_ci_match project_name rest
  end.

Definition apply_project_name_replacement (project_name : string)
           (replacements : json) : result json :=
  match Py.get replacements "project_names" (JObj []) with
  | Raise e => Raise e
  | Ok pn =>
      match Py.get pn "replacements" (JObj []) with
      | Raise e => Raise e
      | Ok (JObj project_replacements) =>
          Ok (match first_ci_match project_name project_replacements with
              | Some replacement => replacement
              | None => JStr project_name
              end)
      | Ok _ => Raise AttributeError
      end
  end.

Definition write_replacements (replacements : json) : M unit :=
  emit EvWriteReplacements ;;;
  fun w => if replacements_writable w
           then (Ok tt, set_replacements_file (Parsed replacements) w)
           else (Raise OSError, w).

(** lines 267-302 of [auto_add_project_to_replacements]: the document to
    write, or [None] when the project is already there *)
Definition add_project (replacements : json) (project_name folder_name : string)
  : result (option json) :=
  pn <-- Py.get replacements "project_names" (JObj []) ;;
  project_replacements <-- Py.get pn "replacements" (JObj []) ;;
  match project_replacements with
  | JObj keys =>
      let exists_ :=
        existsb (fun key => String.eqb (lower project_name) (lower (fst key)))
                keys in
      if exists_ then Ok None
      else
        let friendly_name := replace_char "-" " " project_name in
        project_replacements <--
          Py.setitem project_replacements project_name (JStr friendly_name) ;;
        has_pn <-- Py.contains_str "project_names" replacements ;;
        replacements <--
          (if has_pn then Ok replacements
           else Py.setitem replacements "project_names" (JObj [])) ;;
        pn <-- Py.getitem replacements "project_names" ;;
        pn <-- Py.setitem pn "replacements" project_replacements ;;
        has_comment <-- Py.contains_str "comment" pn ;;
        pn <--
          (if has_comment then Ok pn
           else Py.setitem pn "comment"
                  (JStr "Maps project names to human-friendly names. Keys are matched case-insensitively.")) ;;
        replacements <-- Py.setitem replacements "project_names" pn ;;
        has_auto <-- Py.contains_str "_auto_discovered" replacements ;;
        replacements <--
          (if has_auto then Ok replacements
           else Py.setitem replacements "_auto_discovered"
                  (JObj [("comment",
                          JStr "Projects below were auto-discovered. You can customize their pronunciation by editing the values.")])) ;;
        auto <-- Py.getitem replacements "_auto_discovered" ;;
        has_projects <-- Py.contains_str "projects" auto ;;
        auto <--
          (if has_projects then Ok auto
           else Py.setitem auto "projects" (JObj [])) ;;
        projects <-- Py.getitem auto "projects" ;;
        projects <--
          Py.setitem projects project_name
            (JObj [("folder", JStr folder_name);
                   ("display_name", JStr project_name);
                   ("pronunciation", JStr friendly_name)]) ;;
        auto <-- Py.setitem auto "projects" projects ;;
        replacements <-- Py.setitem replacements "_auto_discovered" auto ;;
        Ok (Some replacements)
  | _ => Raise AttributeError
  end.

(** [auto_add_project_to_replacements] *)
Definition auto_add_project_to_replacements (project_name folder_name : string)
  : M unit :=
  emit (EvAutoAdd project_name) ;;;
  try_except
    (replacements <- load_replacements ;;
     updated <- lift (add_project replacements project_name folder_name) ;;
     match updated with
     | Some replacements => write_replacements replacements
     | None => ret tt
     end)
    (ret tt).

(* ------------------------------------------------------------------ *)
(** ** Project resolver *)

Definition common_parents : list string :=
  ["code"; "projects"; "dev"; "work"; "repos"; "src"; "Documents"; "Desktop"].

Definition str_in (s : string) (l : list string) : bool :=
  existsb (String.eqb s) l.

(** the [for i, part in enumerate(path_parts)] loop: the parts after the
    first common parent that is not the last part *)
Fixpoint remaining_after_parent (path_parts : list string)
  : option (list string) :=
  match path_parts with
  | [] => None
  | part :: rest =>
      if str_in part common_parents && negb (Nat.eqb (List.length rest) 0)
      then Some rest
      else remaining_after_parent rest
  end.

Definition project_name_of_path (actual_project_path : string) : string :=
  let path_parts := PurePath.parts actual_project_path in
  let project_name := PurePath.name actual_project_path in
  match remaining_after_parent path_parts with
  | Some remaining_parts =>
      if Nat.eqb (List.length remaining_parts) 1
      then hd EmptyString remaining_parts
      else if Nat.eqb (List.length remaining_parts) 2
           then join "-" remaining_parts
           else last remaining_parts EmptyString
  | None => project_name
  end.

(** [cwd] when Python takes the branch of [if cwd]: neither [None] nor
    the empty string *)
Definition cwd_given (cwd : option string) : option string :=
  match cwd with
  | Some c => if String.eqb c EmptyString then None else Some c
  | None => None
  end.

(** [glob.glob(pattern)] on the session file *)
Definition glob_session (session_file : string) : M (list string) :=
  emit (EvGlob session_file) ;;;
  fun w => match glob_projects w session_file with
           | Some matches => (Ok matches, w)
           | None => (Raise OSError, w)
           end.

(** lines 321-335: [Some name] when the cached name is returned *)
Definition lookup_cached (cache : json) (session_id : string)
           (cwd : option string) : M (option json) :=
  in_cache <- lift (Py.contains_str session_id cache) ;;
  if in_cache then
    entry <- lift (Py.getitem cache session_id) ;;
    cached_name <- lift (Py.getitem entry "project_name") ;;
    match cwd_given cwd with
    | Some c =>
        has_path <- lift (Py.contains_str "project_path" entry) ;;
        if has_path then
          cached_path <- lift (Py.getitem entry "project_path") ;;
          under <- is_cwd_under_project c cached_path ;;
          if negb under then ret None else ret (Some cached_name)
        else ret (Some cached_name)
    | None => ret (Some cached_name)
    end
  else ret None.

(** lines 338-396, the body of the [try]: [Some name] when it returns *)
Definition search_session_file (cache : json) (session_id : string)
           (cwd : option string) : M (option json) :=
  let session_file := session_id ++ ".jsonl" in
  matches <- glob_session session_file ;;
  match matches with
  | folder_name :: _ =>
      match decode_project_folder_name folder_name with
      | Some actual_project_path =>
          let project_name := project_name_of_path actual_project_path in
          (match cwd_given cwd with
           | Some c => is_cwd_under_project c (JStr actual_project_path) ;;; ret tt
           | None => ret tt
           end) ;;;
          auto_add_project_to_replacements project_name folder_name ;;;
          timestamp <- time_time ;;
          cache <- lift (Py.setitem cache session_id
                     (JObj [("project_name", JStr project_name);
                            ("timestamp", JNum timestamp);
                            ("project_path", JStr actual_project_path);
                            ("claude_folder", JStr folder_name)])) ;;
          save_project_cache cache ;;;
          ret (Some (JStr project_name))
      | None => ret None
      end
  | [] => ret None
  end.

(** the load-then-prune step, lines 317-318 *)
Definition live_cache : M json :=
  cache <- load_project_cache ;;
  clean_old_cache_entries cache.

(** lines 337-403 *)
Definition resolve_from_session_file (cache : json) (session_id : string)
           (cwd : option string) : M json :=
  found <- try_except (search_session_file cache session_id cwd) (ret None) ;;
  match found with
  | Some project_name => ret project_name
  | None => ret (JStr "unknown")
  end.

(** [resolve_project_name] *)
Definition resolve_project_name (session_id : string) (cwd : option string)
  : M json :=
  cache <- load_project_cache ;;
  cache <- clean_old_cache_entries cache ;;
  hit <- lookup_cached cache session_id cwd ;;
  match hit with
  | Some cached_name => ret cached_name
  | None => resolve_from_session_file cache session_id cwd
  end.

(** the document that [load_project_cache] returns *)
Definition loaded_cache (w : World) : json :=
  match cache_file w with
  | Parsed j => j
  | _ => JObj []
  end.

(** the cached entry is trusted for [cwd]: the check of lines 325-327 is
    skipped or passes *)
Definition cache_trusted (w : World) (cwd : option string) (entry : json) : Prop :=
  cwd_given cwd = None
  \/ (exists c, cwd_given cwd = Some c
                /\ Py.contains_str "project_path" entry = Ok false)
  \/ (exists c project_path,
         cwd_given cwd = Some c
         /\ Py.getitem entry "project_path" = Ok project_path
         /\ under_project w c project_path = true).

(** the name that the session record of [session_id] stands for *)
Definition name_from_session_record (w : World) (session_id : string) : json :=
  match glob_projects w (session_id ++ ".jsonl") with
  | Some (folder_name :: _) =>
      match decode_project_folder_name folder_name with
      | Some actual_project_path => JStr (project_name_of_path actual_project_path)
      | None => JStr "unknown"
      end
  | _ => JStr "unknown"
  end.

(* ------------------------------------------------------------------ *)
(** ** hashlib.md5 *)

Module MD5.
Local Open Scope Z_scope.

Definition K : list Z :=
  [3614090360; 3905402710; 606105819; 3250441966; 4118548399; 1200080426;
   2821735955; 4249261313; 1770035416; 2336552879; 4294925233; 2304563134;
   1804603682; 4254626195; 2792965006; 1236535329; 4129170786; 3225465664;
   643717713; 3921069994; 3593408605; 38016083; 3634488961; 3889429448;
   568446438; 3275163606; 4107603335; 1163531501; 2850285829; 4243563512;
   1735328473; 2368359562; 4294588738; 2272392833; 1839030562; 4259657740;
   2763975236; 1272893353; 4139469664; 3200236656; 681279174; 3936430074;
   3572445317; 76029189; 3654602809; 3873151461; 530742520; 3299628645;
   4096336452; 1126891415; 2878612391; 4237533241; 1700485571; 2399980690;
   4293915773; 2240044497; 1873313359; 4264355552; 2734768916; 1309151649;
   4149444226; 3174756917; 718787259; 3951481745].

Definition shifts : list Z :=
  [7; 12; 17; 22; 7; 12; 17; 22; 7; 12; 17; 22; 7; 12; 17; 22;
   5; 9; 14; 20; 5; 9; 14; 20; 5; 9; 14; 20; 5; 9; 14; 20;
   4; 11; 16; 23; 4; 11; 16; 23; 4; 11; 16; 23; 4; 11; 16; 23;
   6; 10; 15; 21; 6; 10; 15; 21; 6; 10; 15; 21; 6; 10; 15; 21].

Definition w32 (x : Z) : Z := x mod 4294967296.

Definition rotl (x c : Z) : Z :=
  w32 (Z.lor (Z.shiftl x c) (Z.shiftr x (32 - c))).

Definition not32 (x : Z) : Z := Z.lxor x 4294967295.

(** [text.encode()]: UTF-8 of the code points below 256 *)
Definition utf8 (s : string) : list Z :=
  flat_map (fun c => let n := Z.of_nat (nat_of_ascii c) in
                     if n <? 128 then [n] else [192 + n / 64; 128 + n mod 64])
           (list_ascii_of_string s).

Definition le_bytes (n : nat) (x : Z) : list Z :=
  map (fun i => Z.shiftr x (8 * Z.of_nat i) mod 256) (seq 0 n).

Definition pad (msg : list Z) : list Z :=
  let len := Z.of_nat (List.length msg) in
  msg ++ [128] ++ repeat 0 (Z.to_nat ((55 - len) mod 64))
      ++ le_bytes 8 ((8 * len) mod 18446744073709551616).

Fixpoint words (n : nat) (bs : list Z) : list Z :=
  match n, bs with
  | S k, b0 :: b1 :: b2 :: b3 :: r =>
      (b0 + 256 * b1 + 65536 * b2 + 16777216 * b3) :: words k r
  | _, _ => []
  end.

Definition state : Type := Z * Z * Z * Z.

Definition round (m : list Z) (st : state) (i : nat) : state :=
  let '(a, b, c, d) := st in
  let iz := Z.of_nat i in
  let '(f, g) :=
    if iz <? 16 then (Z.lor (Z.land b c) (Z.land (not32 b) d), iz)
    else if iz <? 32 then
      (Z.lor (Z.land d b) (Z.land (not32 d) c), (5 * iz + 1) mod 16)
    else if iz <? 48 then (Z.lxor (Z.lxor b c) d, (3 * iz + 5) mod 16)
    else (Z.lxor c (Z.lor b (not32 d)), (7 * iz) mod 16) in
  let f' := w32 (f + a + nth i K 0 + nth (Z.to_nat g) m 0) in
  (d, w32 (b + rotl f' (nth i shifts 0)), b, c).

Definition block (st : state) (bs : list Z) : state :=
  let '(a0, b0, c0, d0) := st in
  let '(a, b, c, d) := fold_left (round (words 16 bs)) (seq 0 64) st in
  (w32 (a0 + a), w32 (b0 + b), w32 (c0 + c), w32 (d0 + d)).

Fixpoint blocks (fuel : nat) (bs : list Z) (st : state) : state :=
  match fuel, bs with
  | S k, _ :: _ => blocks k (skipn 64 bs) (block st (firstn 64 bs))
  | _, _ => st
  end.

Definition digest (msg : list Z) : list Z :=
  let bs := pad msg in
  let '(a, b, c, d) :=
    blocks (List.length bs) bs (1732584193, 4023233417, 2562383102, 271733878) in
  le_bytes 4 a ++ le_bytes 4 b ++ le_bytes 4 c ++ le_bytes 4 d.

Definition hex_digit (n : Z) : ascii :=
  nth (Z.to_nat n) (list_ascii_of_string "0123456789abcdef") "0"%char.

(** [hashlib.md5(text.encode()).hexdigest()] *)
Definition hexdigest (text : string) : string :=
  string_of_list_ascii
    (flat_map (fun b => [hex_digit (b / 16); hex_digit (b mod 16)])
              (digest (utf8 text))).

End MD5.

(* ------------------------------------------------------------------ *)
(** ** [str()] and [repr()] of a value *)

Module PyRepr.

Definition quote1 : ascii := ascii_of_nat 39.
Definition quote2 : ascii := ascii_of_nat 34.
Definition backslash : ascii := ascii_of_nat 92.

Definition hexd (n : nat) : ascii :=
  nth n (list_ascii_of_string "0123456789abcdef") "0"%char.

Definition printable (c : ascii) : bool :=
  let n := nat_of_ascii c in
  (((32 <=? n) && (n <? 127)) || ((161 <=? n) && negb (n =? 173)))%nat.

Definition repr_char (quote c : ascii) : string :=
  let n := nat_of_ascii c in
  if Ascii.eqb c quote || Ascii.eqb c backslash
  then String backslash (String c EmptyString)
  else if (n =? 9)%nat then String backslash "t"
  else if (n =? 10)%nat then String backslash "n"
  else if (n =? 13)%nat then String backslash "r"
  else if printable c then String c EmptyString
  else String backslash
         (String "x" (String (hexd (n / 16)) (String (hexd (n mod 16)) EmptyString))).

Definition repr_str (s : string) : string :=
  let quote := if has_char quote1 s && negb (has_char quote2 s)
               then quote2 else quote1 in
  String quote
    (String.concat EmptyString (map (repr_char quote) (list_ascii_of_string s))
     ++ String quote EmptyString).

Definition decimal (n : Z) : string :=
  DecimalString.NilZero.string_of_int (Z.to_int n).

Fixpoint repr (j : json) : string :=
  match j with
  | JNull => "None"
  | JBool b => if b then "True" else "False"
  | JNum n => decimal n
  | JStr s => repr_str s
  | JArr l => "[" ++ join ", " (map repr l) ++ "]"
  | JObj d =>
      "{" ++ join ", " (map (fun kv => let '(k, v) := kv in
                                        repr_str k ++ ": " ++ repr v) d) ++ "}"
  end.

(** [str(j)], also what an f-string puts for [{j}] *)
Definition str (j : json) : string :=
  match j with
  | JStr s => s
  | _ => repr j
  end.

End PyRepr.

(* ------------------------------------------------------------------ *)
(** ** The regular expression [permission to use (\w+)] *)

(** the class [\w] on the code points below 256 *)
Definition is_word_char (c : ascii) : bool :=
  let n := nat_of_ascii c in
  (((48 <=? n) && (n <=? 57)) || ((65 <=? n) && (n <=? 90)) || (n =? 95)
   || ((97 <=? n) && (n <=? 122)) || (n =? 170) || (n =? 178) || (n =? 179)
   || (n =? 181) || (n =? 185) || (n =? 186) || ((188 <=? n) && (n <=? 190))
   || ((192 <=? n) && (n <=? 214)) || ((216 <=? n) && (n <=? 246))
   || ((248 <=? n) && (n <=? 255)))%nat.

Fixpoint take_word (s : string) : string :=
  match s with
  | EmptyString => EmptyString
  | String c t => if is_word_char c then String c (take_word t) else EmptyString
  end.

(** group 1 of [re.search(r"permission to use (\w+)", s)], leftmost match *)
Fixpoint search_permission_tool (s : string) : option string :=
  let here :=
    if startswith s "permission to use "
    then match take_word (drop 18 s) with
         | EmptyString => None
         | tool => Some tool
         end
    else None in
  match here with
  | Some tool => Some tool
  | None => match s with
            | EmptyString => None
            | String _ t => search_permission_tool t
            end
  end.

(* ------------------------------------------------------------------ *)
(** ** Sound cache *)

Record KokoroTTSProvider : Type := mkKokoro {
  voice : string;
  format : string;
  mp3_bitrate : string
}.

(** the handler, with the module globals it reads *)
Record NotificationHandler : Type := mkHandler {
  USE_TTS : bool;
  TTS_PROVIDER : string;
  tts_provider : option KokoroTTSProvider
}.

(** [KokoroTTSProvider.get_cache_key].  Every string of code points below
    256 encodes; a Python string with a lone surrogate, which no [string]
    stands for, makes [text.encode()] raise. *)
Definition get_cache_key (text : string) : string :=
  take 16 (MD5.hexdigest text).



(** [KokoroTTSProvider.get_file_extension] *)
Definition get_file_extension (p : KokoroTTSProvider) : string :=
  if String.eqb (format p) "mp3" then ".mp3"
  else if String.eqb (format p) "aiff" then ".aiff"
  else ".wav".

(** [name[name.rfind('.'):]] *)
Fixpoint from_last_dot (name : string) : option string :=
  match name with
  | EmptyString => None
  | String c t =>
      match from_last_dot t with
      | Some sfx => Some sfx
      | None => if Ascii.eqb c "." then Some name else None
      end
  end.

(** [PurePath.suffix] of a file name *)
Definition suffix (name : string) : string :=
  match name with
  | EmptyString => EmptyString
  | String _ t =>
      match from_last_dot t with
      | Some sfx => if (1 <? String.length sfx)%nat then sfx else EmptyString
      | None => EmptyString
      end
  end.

(** [Path.with_suffix] on a file name *)
Definition with_suffix (name new_suffix : string) : string :=
  let old := suffix name in
  take (String.length name - String.length old) name ++ new_suffix.

(** [Path.exists], for a name that the file system can look up (an
    over-long name makes it raise [OSError]) *)
Definition file_exists (f : string) : M bool :=
  fun w => (Ok (str_in f (sounds w)), w).

Definition write_sound (f : string) : M unit :=
  fun w => (Ok tt, set_sounds (f :: sounds w) w).

(** [KokoroTTSProvider.generate]; sound files are named relative to
    SOUNDS_DIR *)
Definition generate (p : KokoroTTSProvider) (text output_path : string) : M bool :=
  emit (EvGenerate text output_path) ;;;
  outcome <- (fun w => (Ok (synth w (synth_calls w)),
                        set_synth_calls (S (synth_calls w)) w)) ;;
  match outcome with
  | SynthRaises => ret false
  | SynthDone pydub_missing =>
      if String.eqb (format p) "mp3" then
        if pydub_missing
        then write_sound (with_suffix output_path ".wav") ;;; ret true
        else write_sound output_path ;;; ret true
      else write_sound output_path ;;; ret true
  | SynthTruncated pydub_missing =>
      if String.eqb (format p) "mp3" then
        if pydub_missing
        then write_sound (with_suffix output_path ".wav") ;;; ret false
        else write_sound output_path ;;; ret false
      else write_sound output_path ;;; ret false
  end.

Definition default_texts : list (string * string) :=
  [("tool_activity", "Tool activity");
   ("execution_complete", "Task complete");
   ("subagent_done", "Sub agent done");
   ("error", "Error occurred");
   ("tool_blocked", "Tool blocked");
   ("compaction", "Compacting context");
   ("input_needed", "Input needed")].

Fixpoint table_get (k : string) (t : list (string * string)) : option string :=
  match t with
  | [] => None
  | (k', v) :: r => if String.eqb k k' then Some v else table_get k r
  end.

Definition text_to_speak (event_type custom_text : string) : string :=
  if negb (String.eqb custom_text EmptyString) then custom_text
  else match table_get event_type default_texts with
       | Some t => t
       | None => "Claude notification"
       end.

Definition sound_file_name (h : NotificationHandler) (p : KokoroTTSProvider)
           (event_type custom_text : string) : string :=
  TTS_PROVIDER h ++ "_" ++ event_type ++ "_"
    ++ get_cache_key (text_to_speak event_type custom_text)
    ++ get_file_extension p.

(** [NotificationHandler.get_notification_sound], as it runs when
    lines 549-554 return: they stand outside the [try], so that a text
    that does not encode or a name that cannot be looked up makes the
    call raise, which [get_cache_key] and [file_exists] leave out *)
Definition get_notification_sound (h : NotificationHandler)
           (event_type custom_text : string) : M (option string) :=
  if negb (USE_TTS h) then ret None
  else
    match tts_provider h with
    | None => ret None
    | Some p =>
        let text := text_to_speak event_type custom_text in
        let sound_file := sound_file_name h p event_type custom_text in
        cached <- file_exists sound_file ;;
        if cached then ret (Some sound_file)
        else
          try_except
            (success <- generate p text sound_file ;;
             if success then ret (Some sound_file) else ret None)
            (ret None)
    end.

(** [NotificationHandler.notify] *)
Definition notify (title : string) (message : json) : M unit :=
  emit (EvNotify title message).

(** [NotificationHandler.play_sound_file] *)
Definition play_sound_file (sound_path : string) : M unit :=
  present <- file_exists sound_path ;;
  if present then emit (EvPlay sound_path) else ret tt.

(* ------------------------------------------------------------------ *)
(** ** Hook classification: [handle_hook], lines 616-757

    [display_project_name] is the alias-applied project name of line 612. *)

(** the three locals at line 759, or the [return] of line 628 *)
Inductive classified : Type :=
| Returned
| Locals (event_type : option string) (message : option json)
         (custom_tts : option string).

(** [hook_data.get(k, default)] *)
Definition hook_get (hook_data : dict) (k : string) (default : json) : json :=
  match Py.dict_get k hook_data with
  | Some v => v
  | None => default
  end.

(** [hook_data.get(k1, hook_data.get(k2, default))] *)
Definition hook_get2 (hook_data : dict) (k1 k2 : string) (default : json) : json :=
  hook_get hook_data k1 (hook_get hook_data k2 default).

Definition safe_prefixes : list string :=
  ["echo"; "pwd"; "ls"; "cat"; "head"; "tail"; "grep"; "find"; "which"].

Definition dangerous_prefixes : list string :=
  ["rm"; "mv"; "cp"; "sudo"; "chmod"; "chown"; ">"; "curl"; "wget"].

(** [target], lines 639-645 *)
Definition command_target (cmd_parts : list string) : option string :=
  match cmd_parts with
  | _ :: p1 :: _ =>
      if negb (String.eqb p1 EmptyString) then
        let target := if contains "/" p1 then PurePath.name p1 else p1 in
        if startswith target "-" then
          if (2 <? List.length cmd_parts)%nat
          then Some (PurePath.name (last cmd_parts EmptyString))
          else None
        else Some target
      else None
  | _ => None
  end.

(** [target] when [if target] holds *)
Definition given (target : option string) : option string :=
  match target with
  | Some t => if String.eqb t EmptyString then None else Some t
  | None => None
  end.

Definition tts_descriptions (target : option string) : list (string * string) :=
  let phrase (with_target without : string) :=
    match given target with
    | Some t => with_target ++ t
    | None => without
    end in
  [("rm", phrase "removing " "removing files");
   ("rm -rf", phrase "force removing " "force removing files");
   ("rm -r", phrase "removing directory " "removing directory");
   ("mv", phrase "moving " "moving files");
   ("cp", phrase "copying " "copying files");
   ("sudo", "running with admin privileges");
   ("chmod", phrase "changing permissions on " "changing permissions");
   ("chown", phrase "changing ownership of " "changing ownership");
   ("curl", "downloading from web");
   ("wget", "downloading file")].

Definition table_index (k : string) (t : list (string * string)) : string :=
  match table_get k t with
  | Some v => v
  | None => EmptyString
  end.

(** the [Bash] branch, lines 625-678 *)
Definition classify_bash (display_project_name command : string) : classified :=
  if existsb (fun prefix => startswith (strip command) prefix) safe_prefixes
  then Returned
  else if existsb (fun prefix => contains prefix command) dangerous_prefixes then
    let cmd_parts := split_ws command in
    let cmd_summary := match cmd_parts with
                       | c :: _ => c
                       | [] => "command"
                       end in
    let target := command_target cmd_parts in
    let audio_desc :=
      if String.eqb cmd_summary "rm" && contains "-rf" command
      then table_index "rm -rf" (tts_descriptions target)
      else if String.eqb cmd_summary "rm" && contains "-r" command
      then table_index "rm -r" (tts_descriptions target)
      else match table_get cmd_summary (tts_descriptions target) with
           | Some desc => desc
           | None => "running " ++ cmd_summary
           end in
    let message :=
      match given target with
      | Some t => "[" ++ display_project_name ++ "] Running " ++ cmd_summary
                      ++ " on " ++ t
      | None => "[" ++ display_project_name ++ "] Running " ++ cmd_summary
      end in
    Locals (Some "tool_activity") (Some (JStr message))
           (Some (display_project_name ++ ", " ++ audio_desc))
  else Locals None None None.

(** [any(x in j for x in markers)] *)
Fixpoint any_in (markers : list string) (j : json) : result bool :=
  match markers with
  | [] => Ok false
  | x :: rest =>
      match Py.contains_str x j with
      | Raise e => Raise e
      | Ok true => Ok true
      | Ok false => any_in rest j
      end
  end.

(** the file-editing branch, lines 681-698 *)
Definition classify_edit (display_project_name : string) (tool_name : json)
           (file_path : json) : result classified :=
  match any_in ["/etc/"; "/usr/"; ".env"; "config"; "secret"] file_path with
  | Raise e => Raise e
  | Ok false => Ok (Locals None None None)
  | Ok true =>
      match file_path with
      | JStr fp =>
          let file_name := PurePath.name fp in
          let action_desc :=
            if Py.eq_str tool_name "Write" then "writing"
            else if Py.eq_str tool_name "MultiEdit" then "multi-editing"
                 else "editing" in
          Ok (Locals (Some "tool_activity")
                (Some (JStr ("[" ++ display_project_name ++ "] "
                               ++ capitalize action_desc ++ " " ++ file_name)))
                (Some (display_project_name ++ ", " ++ action_desc ++ " "
                         ++ file_name)))
      | _ => Raise TypeError
      end
  end.

(** the [PostToolUse] branch, lines 700-716 *)
Definition classify_post (display_project_name : string) (hook_data : dict)
  : classified :=
  let tool_response := hook_get2 hook_data "response" "tool_response" (JObj []) in
  let tool_name := hook_get2 hook_data "tool" "tool_name" (JStr "unknown") in
  match tool_response with
  | JObj tr =>
      if Py.eq_str (hook_get tr "type" JNull) "error" || Py.dict_has "error" tr
      then
        let error_msg := hook_get2 tr "error" "message" (JStr "Unknown error") in
        Locals (Some "error")
          (Some (JStr ("[" ++ display_project_name ++ "] Error in "
                         ++ PyRepr.str tool_name ++ ": "
                         ++ take 100 (PyRepr.str error_msg))))
          (Some (display_project_name ++ ", " ++ PyRepr.str tool_name ++ " failed"))
      else Locals None None None
  | _ => Locals None None None
  end.

(** the [Notification] branch, lines 732-757 *)
Definition classify_notification (display_project_name : string)
           (hook_data : dict) : result classified :=
  let notif_type := hook_get hook_data "notification_type" (JStr EmptyString) in
  let raw_message := hook_get hook_data "message" (JStr EmptyString) in
  match notif_type with
  | JStr nt =>
      if contains "error" (lower nt)
      then Ok (Locals (Some "error")
                 (Some (hook_get hook_data "message" (JStr "An error occurred")))
                 None)
      else
        match Py.contains_str "permission to use" raw_message with
        | Raise e => Raise e
        | Ok true =>
            match raw_message with
            | JStr rm =>
                match search_permission_tool rm with
                | Some tool_requested =>
                    Ok (Locals (Some "input_needed")
                          (Some (JStr ("[" ++ display_project_name
                                         ++ "] Permission needed for "
                                         ++ tool_requested)))
                          (Some (display_project_name
                                   ++ ", needs permission for " ++ tool_requested)))
                | None =>
                    Ok (Locals (Some "input_needed")
                          (Some (JStr ("[" ++ display_project_name ++ "] " ++ rm)))
                          (Some (display_project_name ++ ", " ++ rm)))
                end
            | _ => Raise TypeError
            end
        | Ok false =>
            Ok (Locals (Some "input_needed")
                  (Some (JStr ("[" ++ display_project_name ++ "] Input needed")))
                  (Some (display_project_name ++ ", input needed")))
        end
  | _ => Raise AttributeError
  end.

(** [hook_type], line 575 *)
Definition hook_type_of (hook_data : dict) : json :=
  hook_get2 hook_data "event" "hook_event_name" (JStr "unknown").

(** [tool_name], line 618 *)
Definition tool_name_of (hook_data : dict) : json :=
  hook_get2 hook_data "tool" "tool_name" (JStr "unknown").

(** the tool parameters, lines 624 and 683 *)
Definition parameters_of (hook_data : dict) : json :=
  hook_get2 hook_data "parameters" "tool_input" (JObj []).

Definition classify (display_project_name : string) (hook_data : dict)
  : result classified :=
  let hook_type := hook_type_of hook_data in
  if Py.eq_str hook_type "PreToolUse" then
    let tool_name := tool_name_of hook_data in
    if Py.eq_str tool_name "Bash" then
      match Py.get (parameters_of hook_data) "command" (JStr EmptyString) with
      | Raise e => Raise e
      | Ok (JStr command) => Ok (classify_bash display_project_name command)
      | Ok _ => Raise AttributeError
      end
    else if existsb (Py.eq_str tool_name) ["Write"; "MultiEdit"; "Edit"] then
      match Py.get (parameters_of hook_data) "file_path" (JStr EmptyString) with
      | Raise e => Raise e
      | Ok file_path => classify_edit display_project_name tool_name file_path
      end
    else Ok (Locals None None None)
  else if Py.eq_str hook_type "PostToolUse" then
    Ok (classify_post display_project_name hook_data)
  else if Py.eq_str hook_type "Stop" then
    Ok (Locals (Some "execution_complete")
          (Some (JStr ("[" ++ display_project_name ++ "] Task complete")))
          (Some (display_project_name ++ ", task completed successfully")))
  else if Py.eq_str hook_type "SubagentStop" then
    Ok (Locals (Some "subagent_done")
          (Some (JStr ("[" ++ display_project_name ++ "] Subagent finished")))
          (Some (display_project_name ++ ", sub agent finished")))
  else if Py.eq_str hook_type "PreCompact" then
    Ok (Locals (Some "compaction") (Some (JStr "Context compaction starting")) None)
  else if Py.eq_str hook_type "Notification" then
    classify_notification display_project_name hook_data
  else Ok (Locals None None None).

(* ------------------------------------------------------------------ *)
(** ** Dispatch: [handle_hook], lines 759-778 *)

(** [s.split(sep, 1)[-1]] *)
Fixpoint after_first (sep s : string) : option string :=
  if startswith s sep then Some (drop (String.length sep) s)
  else match s with
       | EmptyString => None
       | String _ t => after_first sep t
       end.

Definition split1_last (sep s : string) : string :=
  match after_first sep s with
  | Some rest => rest
  | None => s
  end.

Definition dispatch (h : NotificationHandler) (display_project_name : string)
           (c : classified) : M unit :=
  match c with
  | Locals (Some event_type) (Some message) custom_tts =>
      if negb (String.eqb event_type EmptyString) && Py.truthy message then
        has_prefix <- lift (Py.contains_str "] " message) ;;
        clean_message <-
          (if has_prefix
           then match message with
                | JStr s => ret (JStr (split1_last "] " s))
                | _ => raise AttributeError
                end
           else ret message) ;;
        notify display_project_name clean_message ;;;
        sound_file <- get_notification_sound h event_type
                        (match custom_tts with
                         | Some t => t
                         | None => EmptyString
                         end) ;;
        match sound_file with
        | Some f => play_sound_file f
        | None => ret tt
        end
      else ret tt
  | _ => ret tt
  end.

(** [handle_hook] from line 616 on *)
Definition handle_hook (h : NotificationHandler) (display_project_name : string)
           (hook_data : dict) : M unit :=
  c <- lift (classify display_project_name hook_data) ;;
  dispatch h display_project_name c.

(** the notification intent of a classification: category, display
    message and TTS text, when a notification is sent *)
Definition intent (c : classified) : option (string * json * option string) :=
  match c with
  | Locals (Some event_type) (Some message) custom_tts =>
      if negb (String.eqb event_type EmptyString) && Py.truthy message
      then Some (event_type, message, custom_tts)
      else None
  | _ => None
  end.

(** a display message that begins with the bracketed project name *)
Definition prefixed (display_project_name : string) (message : json) : bool :=
  match message with
  | JStr s => startswith s ("[" ++ display_project_name ++ "] ")
  | _ => false
  end.

(* ------------------------------------------------------------------ *)
(** ** Sample worlds *)

Definition demo_cache : json :=
  JObj [("old-session",
         JObj [("project_name", JStr "legacy");
               ("timestamp", JNum 1000);
               ("project_path", JStr "/Users/helmi/code/legacy");
               ("claude_folder", JStr "-Users-helmi-code-legacy")]);
        ("s1",
         JObj [("project_name", JStr "zero");
               ("timestamp", JNum 1699990000);
               ("project_path", JStr "/Users/helmi/code/zero");
               ("claude_folder", JStr "-Users-helmi-code-zero")])].

(** a file system without symbolic links, a session record of [s1] under
    another project folder, a backend that works *)
Definition demo_world : World :=
  mkWorld (Parsed demo_cache) true Missing true
          (fun _ => 1700000000%Z) 0
          (fun f => if String.eqb f "s1.jsonl"
                    then Some ["-Users-helmi-code-other"] else Some [])
          (fun p => Some (PurePath.parts p))
          [] (fun _ => SynthDone false) 0 [].

(** a world whose project cache holds [doc]; there is no session record *)
Definition cache_world (doc : json) : World :=
  mkWorld (Parsed doc) true Missing true
          (fun _ => 1700000000%Z) 0
          (fun _ => Some [])
          (fun p => Some (PurePath.parts p))
          [] (fun _ => SynthDone false) 0 [].

(** a cache document as [save_project_cache] writes them: every entry is
    an object with a numeric [timestamp] (or none) and a [project_name] *)
Definition well_formed_cache (doc : json) : Prop :=
  exists items,
    doc = JObj items
    /\ Forall (fun kv => (exists t, entry_timestamp (snd kv) = Ok t)
                         /\ exists name, Py.getitem (snd kv) "project_name" = Ok name)
              items.

(** a [PreToolUse] hook of the [Bash] tool *)
Definition bash_hook (command : string) : dict :=
  [("hook_event_name", JStr "PreToolUse");
   ("tool_name", JStr "Bash");
   ("tool_input", JObj [("command", JStr command)])].

(** a handler with the embedded provider, as [_init_tts_provider] sets it up *)
Definition demo_handler : NotificationHandler :=
  mkHandler true "kokoro" (Some (mkKokoro "af_sarah" "mp3" "128k")).



(* ------------------------------------------------------------------ *)
(** ** Further parts of [notify.py] *)

(** whether an entry passes the test of line 231 at [current_time] *)
Definition entry_fresh (current_time : Z) (data : json) : bool :=
  match entry_timestamp data with
  | Ok t => (current_time - t <? CACHE_EXPIRY_DAYS * 24 * 60 * 60)%Z
  | Raise _ => false
  end.

(** a path component as a folder name can encode it: not empty, not [.],
    without ['/'] and without ['-'] *)
Definition plain_segment (seg : string) : bool :=
  negb (String.eqb seg EmptyString) && negb (String.eqb seg ".")
  && negb (has_char "/" seg) && negb (has_char "-" seg).

(** [w] with other answers to whether the two documents can be written *)
Definition with_writable (cache_ok replacements_ok : bool) (w : World) : World :=
  mkWorld (cache_file w) cache_ok (replacements_file w) replacements_ok
          (clock w) (ticks w) (glob_projects w) (path_resolve w)
          (sounds w) (synth w) (synth_calls w) (trace w).

(** the cache entry that line 387 stores *)
Definition cache_entry (project_name : string) (timestamp : Z)
           (actual_project_path folder_name : string) : json :=
  JObj [("project_name", JStr project_name);
        ("timestamp", JNum timestamp);
        ("project_path", JStr actual_project_path);
        ("claude_folder", JStr folder_name)].

(** a world with a session record of [s2] that the cache does not know
    yet; the clock advances by one second per reading *)
Definition fresh_session_world : World :=
  mkWorld (Parsed demo_cache) true Missing true
          (fun n => (1700000000 + Z.of_nat n)%Z) 0
          (fun f => if String.eqb f "s2.jsonl"
                    then Some ["-Users-helmi-code-paperless-ai"] else Some [])
          (fun p => Some (PurePath.parts p))
          [] (fun _ => SynthDone false) 0 [].

(** [l.index(x)] for an [x] that occurs in [l] *)
Fixpoint index_of (x : string) (l : list string) : nat :=
  match l with
  | [] => 0
  | y :: rest => if String.eqb y x then 0 else S (index_of x rest)
  end.

(** the project name of [handle_hook] when the event names no session,
    lines 593-604, for a [cwd] that is a non-empty string *)
Definition project_name_from_cwd (cwd : string) : string :=
  let path_parts := PurePath.parts cwd in
  if str_in "code" path_parts then
    let idx := index_of "code" path_parts in
    if (idx + 1 <? List.length path_parts)%nat
    then nth (idx + 1) path_parts EmptyString
    else PurePath.name cwd
  else PurePath.name cwd.

(** every character of [s] is matched by [\w] *)
Fixpoint all_word (s : string) : bool :=
  match s with
  | EmptyString => true
  | String c t => is_word_char c && all_word t
  end.


(* ------------------------------------------------------------------ *)
(** * Properties *)

(** ** Strings *)

Section SplitJoin.

Variable sep : ascii.

Lemma split_on_not_nil (s : string) : split_on sep s <> [].
Proof.
  destruct s as [|c t]; simpl; [discriminate|].
  destruct (Ascii.eqb c sep); [discriminate|].
  destruct (split_on sep t); discriminate.
Qed.

Lemma split_on_no_sep (s : string) :
  has_char sep s = false -> split_on sep s = [s].
Proof.
  induction s as [|c t IH]; simpl; intros H; [reflexivity|].
  apply orb_false_iff in H as [Hc Ht].
  rewrite Hc, (IH Ht). reflexivity.
Qed.

Lemma split_on_app (s t : string) :
  has_char sep s = false ->
  split_on sep (s ++ String sep t) = s :: split_on sep t.
Proof.
  induction s as [|c s' IH]; simpl; intros H.
  - now rewrite Ascii.eqb_refl.
  - apply orb_false_iff in H as [Hc Hs].
    rewrite Hc, (IH Hs). reflexivity.
Qed.

Lemma join_split_on (s : string) :
  join (String sep EmptyString) (split_on sep s) = s.
Proof.
  unfold join.
  induction s as [|c t IH]; simpl; [reflexivity|].
  destruct (Ascii.eqb_spec c sep) as [->|Hne].
  - pose proof (split_on_not_nil t) as Hnil.
    destruct (split_on sep t) as [|h r] eqn:E; [contradiction|].
    change (String.concat (String sep EmptyString) (EmptyString :: h :: r))
      with (String sep (String.concat (String sep EmptyString) (h :: r))).
    now rewrite IH.
  - pose proof (split_on_not_nil t) as Hnil.
    destruct (split_on sep t) as [|h r] eqn:E; [contradiction|].
    rewrite <- IH. destruct r; reflexivity.
Qed.

Lemma split_on_join (l : list string) :
  l <> [] ->
  Forall (fun seg => has_char sep seg = false) l ->
  split_on sep (join (String sep EmptyString) l) = l.
Proof.
  unfold join.
  induction l as [|x r IH]; intros Hnil Hall; [contradiction|].
  inversion Hall as [|? ? Hx Hr]; subst.
  destruct r as [|y r'].
  - simpl. now apply split_on_no_sep.
  - change (String.concat (String sep EmptyString) (x :: y :: r'))
      with (x ++ String sep (String.concat (String sep EmptyString) (y :: r'))).
    rewrite (split_on_app _ _ Hx), IH; [reflexivity|discriminate|assumption].
Qed.

(** a character absent from [s] is absent from every piece of [s] *)
Lemma split_on_has_char (a : ascii) (s : string) :
  has_char a s = false ->
  Forall (fun seg => has_char a seg = false) (split_on sep s).
Proof.
  induction s as [|c t IH]; simpl; intros H.
  - constructor; [reflexivity|constructor].
  - apply orb_false_iff in H as [Hc Ht]. specialize (IH Ht).
    destruct (Ascii.eqb c sep).
    + constructor; [reflexivity|assumption].
    + destruct (split_on sep t) as [|h r]; constructor.
      * simpl. now rewrite Hc.
      * constructor.
      * inversion IH; subst. simpl. rewrite Hc. assumption.
      * inversion IH; assumption.
Qed.

End SplitJoin.

Lemma prefix_empty (s : string) : String.prefix EmptyString s = true.
Proof. now destruct s. Qed.

Lemma startswith_cons (c : ascii) (s : string) :
  startswith (String c s) (String c EmptyString) = true.
Proof.
  unfold startswith. simpl.
  destruct (ascii_dec c c); [apply prefix_empty|contradiction].
Qed.

Lemma startswith_char (c : ascii) (s : string) :
  startswith s (String c EmptyString) = true ->
  s = String c (drop 1 s).
Proof.
  unfold startswith. destruct s as [|c' t]; simpl; [discriminate|].
  destruct (Ascii.eqb_spec c c') as [->|]; [reflexivity|].
  destruct (ascii_dec c c'); [contradiction|discriminate].
Qed.

(** ** C8: the folder-name encoding *)

(** C8.  Round trip of the project-folder encoding.  For every absolute
    path none of whose segments contains ['-'], decoding its encoding gives
    the path back (the segments need not even be non-empty); for every
    folder name with the leading marker (and, being a folder name, without
    ['/']), decoding and re-encoding gives the folder name back; a folder
    name without the leading marker decodes to nothing. *)
Theorem decode_encode_project_folder_name :
  (forall path : string,
      startswith path "/" = true ->
      Forall (fun seg => has_char "-" seg = false) (split_on "/" (drop 1 path)) ->
      decode_project_folder_name (encode_project_folder_name path) = Some path)
  /\ (forall folder_name : string,
      startswith folder_name "-" = true ->
      has_char "/" folder_name = false ->
      exists path,
        decode_project_folder_name folder_name = Some path
        /\ encode_project_folder_name path = folder_name)
  /\ (forall folder_name : string,
      startswith folder_name "-" = false ->
      decode_project_folder_name folder_name = None).
Proof.
  split; [|split].
  - intros path Habs Hseg.
    unfold decode_project_folder_name, encode_project_folder_name.
    change ("-" ++ join "-" (split_on "/" (drop 1 path)))
      with (String "-" (join "-" (split_on "/" (drop 1 path)))).
    rewrite startswith_cons. simpl negb. cbv iota.
    change (drop 1 (String "-" ?x)) with x.
    rewrite split_on_join by (auto using split_on_not_nil).
    rewrite join_split_on.
    f_equal. symmetry. exact (startswith_char _ _ Habs).
  - intros folder_name Hmark Hslash.
    unfold decode_project_folder_name. rewrite Hmark. simpl negb. cbv iota.
    eexists; split; [reflexivity|].
    unfold encode_project_folder_name.
    change (drop 1 ("/" ++ ?x)) with x.
    rewrite (startswith_char _ _ Hmark) in Hslash. simpl in Hslash.
    rewrite split_on_join.
    + rewrite join_split_on. symmetry. exact (startswith_char _ _ Hmark).
    + apply split_on_not_nil.
    + now apply split_on_has_char.
  - intros folder_name Hmark.
    unfold decode_project_folder_name. now rewrite Hmark.
Qed.

Lemma decode_encode_project_folder_name_witness :
  decode_project_folder_name
    (encode_project_folder_name "/Users/helmi/code/zero")
  = Some "/Users/helmi/code/zero"
  /\ (exists path,
         decode_project_folder_name "-Users-helmi-code-zero" = Some path
         /\ encode_project_folder_name path = "-Users-helmi-code-zero")
  /\ decode_project_folder_name "Users-helmi" = None.
Proof.
  destruct decode_encode_project_folder_name as (Hround & Hback & Hnone).
  split; [|split].
  - apply Hround; [reflexivity|repeat constructor].
  - apply Hback; reflexivity.
  - apply Hnone. reflexivity.
Defined.

(** ** Dictionaries *)

Lemma dict_get_set_same (k : string) (v : json) (d : dict) :
  Py.dict_get k (Py.dict_set k v d) = Some v.
Proof.
  induction d as [|[k' v'] r IH]; simpl.
  - now rewrite String.eqb_refl.
  - destruct (String.eqb k k') eqn:E; simpl; rewrite E; [reflexivity|exact IH].
Qed.

Lemma dict_get_set_other (k k' : string) (v : json) (d : dict) :
  k <> k' -> Py.dict_get k (Py.dict_set k' v d) = Py.dict_get k d.
Proof.
  intros Hne. induction d as [|[k0 v0] r IH]; simpl.
  - destruct (String.eqb_spec k k'); [contradiction|reflexivity].
  - destruct (String.eqb_spec k' k0) as [->|Hk']; simpl.
    + destruct (String.eqb_spec k k0); [contradiction|reflexivity].
    + destruct (String.eqb_spec k k0); [reflexivity|exact IH].
Qed.

Lemma dict_get_In (k : string) (v : json) (d : dict) :
  Py.dict_get k d = Some v -> In (k, v) d.
Proof.
  induction d as [|[k' v'] r IH]; simpl; [discriminate|].
  destruct (String.eqb_spec k k') as [->|]; intros H.
  - injection H as ->. now left.
  - right. auto.
Qed.

(** ** C9: pruning *)

Section Pruning.

Variables current_time expiry_seconds : Z.

(** whatever the loop keeps was kept before or is a fresh item *)
Lemma clean_loop_sound (items acc kept : dict) :
  clean_loop current_time expiry_seconds items acc = Ok kept ->
  forall sid data,
    Py.dict_get sid kept = Some data ->
    Py.dict_get sid acc = Some data
    \/ (In (sid, data) items
        /\ exists t, entry_timestamp data = Ok t
                     /\ (current_time - t < expiry_seconds)%Z).
Proof.
  revert acc. induction items as [|[k d] rest IH]; simpl; intros acc Hrun sid data Hget.
  - injection Hrun as <-. now left.
  - destruct (entry_timestamp d) as [t|] eqn:Et; [|discriminate].
    destruct (IH _ Hrun sid data Hget) as [Hacc|[Hin Hfresh]].
    + destruct (current_time - t <? expiry_seconds)%Z eqn:Elt; [|now left].
      destruct (String.eqb_spec sid k) as [->|Hne].
      * rewrite dict_get_set_same in Hacc. injection Hacc as <-.
        right. split; [now left|]. exists t. split; [assumption|].
        now apply Z.ltb_lt.
      * rewrite dict_get_set_other in Hacc by assumption. now left.
    + right. split; [now right|assumption].
Qed.

(** with pairwise distinct keys, the loop decides every item by its age *)
Lemma clean_loop_complete (items acc kept : dict) :
  clean_loop current_time expiry_seconds items acc = Ok kept ->
  NoDup (map fst items) ->
  forall sid,
    (~ In sid (map fst items) -> Py.dict_get sid kept = Py.dict_get sid acc)
    /\ (forall data t,
           Py.dict_get sid items = Some data ->
           Py.dict_get sid acc = None ->
           entry_timestamp data = Ok t ->
           Py.dict_get sid kept
           = if (current_time - t <? expiry_seconds)%Z then Some data else None).
Proof.
  revert acc. induction items as [|[k d] rest IH]; simpl; intros acc Hrun Hnd sid.
  - injection Hrun as <-. split; [reflexivity|discriminate].
  - destruct (entry_timestamp d) as [t|] eqn:Et; [|discriminate].
    inversion Hnd as [|? ? Hk Hrest]; subst.
    destruct (IH _ Hrun Hrest sid) as [Hout Hin].
    split.
    + intros Hnot. rewrite Hout by tauto.
      destruct (current_time - t <? expiry_seconds)%Z; [|reflexivity].
      apply dict_get_set_other. intros ->. tauto.
    + intros data t' Hget Hacc Ht'.
      destruct (String.eqb_spec sid k) as [->|Hne].
      * injection Hget as <-. rewrite Et in Ht'. injection Ht' as <-.
        rewrite Hout by assumption.
        destruct (current_time - t <? expiry_seconds)%Z;
          [apply dict_get_set_same|assumption].
      * apply Hin; [assumption| |assumption].
        destruct (current_time - t <? expiry_seconds)%Z; [|assumption].
        now rewrite dict_get_set_other.
Qed.

End Pruning.

Lemma run_live_cache (w : World) :
  run live_cache w
  = match loaded_cache w with
    | JObj items =>
        match clean_loop (clock w (ticks w)) (7 * 24 * 60 * 60) items [] with
        | Ok kept => (Ok (JObj kept), set_ticks (S (ticks w)) w)
        | Raise e => (Raise e, set_ticks (S (ticks w)) w)
        end
    | _ => (Raise AttributeError, set_ticks (S (ticks w)) w)
    end.
Proof.
  unfold run, live_cache, load_project_cache, loaded_cache, bind.
  destruct (cache_file w) as [| |j]; try reflexivity.
  - destruct j; try reflexivity.
    unfold clean_old_cache_entries, bind, time_time.
    change (CACHE_EXPIRY_DAYS * 24 * 60 * 60)%Z with (7 * 24 * 60 * 60)%Z.
    destruct (clean_loop _ _ d []); reflexivity.
Qed.

(** C9.  After the load-then-prune step every entry left in the cache has
    a timestamp age strictly below 7 days ([7*24*60*60] seconds); an entry
    of the loaded document whose age is 7 days or more is absent, and one
    whose age is below 7 days is kept unchanged.  The age of an entry is
    the clock reading minus its [timestamp] (0 when the key is absent). *)
Theorem load_prune_expiry (w w' : World) (cleaned : json) :
  run live_cache w = (Ok cleaned, w') ->
  let now := clock w (ticks w) in
  exists items kept,
    loaded_cache w = JObj items
    /\ cleaned = JObj kept
    /\ (forall sid data,
           Py.dict_get sid kept = Some data ->
           In (sid, data) items
           /\ exists t, entry_timestamp data = Ok t
                        /\ (now - t < 7 * 24 * 60 * 60)%Z)
    /\ (Py.dict_wf items ->
        forall sid data,
          Py.dict_get sid items = Some data ->
          exists t,
            entry_timestamp data = Ok t
            /\ ((7 * 24 * 60 * 60 <= now - t)%Z -> Py.dict_get sid kept = None)
            /\ ((now - t < 7 * 24 * 60 * 60)%Z -> Py.dict_get sid kept = Some data)).
Proof.
  intros Hrun now. rewrite run_live_cache in Hrun.
  destruct (loaded_cache w) as [| | | | |items] eqn:El; try discriminate.
  destruct (clean_loop _ _ items []) as [kept|] eqn:Ec; [|discriminate].
  injection Hrun as <- <-.
  exists items, kept. repeat split; try reflexivity.
  - destruct (clean_loop_sound _ _ _ _ _ Ec sid data H) as [Habs|[Hin _]];
      [discriminate|assumption].
  - destruct (clean_loop_sound _ _ _ _ _ Ec sid data H) as [Habs|[_ Hfresh]];
      [discriminate|assumption].
  - intros Hwf sid data Hget.
    assert (Hts : exists t, entry_timestamp data = Ok t).
    { clear -Ec Hget. revert Ec. generalize (@nil (string * json)).
      induction items as [|[k d] rest IH]; simpl in *; [discriminate|].
      intros acc. destruct (entry_timestamp d) as [t|] eqn:Et; [|discriminate].
      destruct (String.eqb_spec sid k) as [->|].
      - injection Hget as <-. eauto.
      - intros Hrun. eapply IH; eauto. }
    destruct Hts as [t Ht]. exists t. split; [assumption|].
    destruct (clean_loop_complete _ _ _ _ _ Ec Hwf sid) as [_ Hin].
    specialize (Hin data t Hget eq_refl Ht). fold now in Hin.
    split; intros Hage.
    + apply Z.ltb_ge in Hage. now rewrite Hage in Hin.
    + apply Z.ltb_lt in Hage. now rewrite Hage in Hin.
Qed.

(** ** Running the resolver *)

Ltac world_simpl :=
  cbn [cache_file cache_writable replacements_file replacements_writable
       clock ticks glob_projects path_resolve sounds synth synth_calls trace
       set_cache_file set_replacements_file set_ticks set_sounds
       set_synth_calls set_trace fst snd] in *.

Lemma run_resolve_project_name (session_id : string) (cwd : option string)
      (w : World) :
  run (resolve_project_name session_id cwd) w
  = match run live_cache w with
    | (Ok cache, w1) =>
        match run (lookup_cached cache session_id cwd) w1 with
        | (Ok (Some cached_name), w2) => (Ok cached_name, w2)
        | (Ok None, w2) =>
            run (resolve_from_session_file cache session_id cwd) w2
        | (Raise e, w2) => (Raise e, w2)
        end
    | (Raise e, w1) => (Raise e, w1)
    end.
Proof.
  unfold run, resolve_project_name, live_cache, bind.
  destruct (load_project_cache w) as [[c|e] w0]; [|reflexivity].
  destruct (clean_old_cache_entries c w0) as [[c'|e] w1]; [|reflexivity].
  destruct (lookup_cached c' session_id cwd w1) as [[[n|]|e] w2]; reflexivity.
Qed.

(** the lookup in the cache reads the world and leaves it as it is *)
Lemma lookup_cached_pure (cache : json) (session_id : string)
      (cwd : option string) (w w' : World) (r : result (option json)) :
  run (lookup_cached cache session_id cwd) w = (r, w') -> w' = w.
Proof.
  unfold run, lookup_cached, bind, lift, ret, is_cwd_under_project.
  destruct (Py.contains_str session_id cache) as [[|]|]; try congruence.
  destruct (Py.getitem cache session_id) as [entry|]; try congruence.
  destruct (Py.getitem entry "project_name"); try congruence.
  destruct (cwd_given cwd) as [c|]; try congruence.
  destruct (Py.contains_str "project_path" entry) as [[|]|]; try congruence.
  destruct (Py.getitem entry "project_path") as [pp|]; try congruence.
  destruct (under_project w c pp); simpl; congruence.
Qed.

Lemma lookup_cached_entry (cache : dict) (session_id : string)
      (cwd : option string) (entry name : json) (w : World) :
  Py.dict_get session_id cache = Some entry ->
  Py.getitem entry "project_name" = Ok name ->
  run (lookup_cached (JObj cache) session_id cwd) w
  = (Ok match cwd_given cwd with
        | None => Some name
        | Some c =>
            match Py.getitem entry "project_path" with
            | Ok project_path =>
                if under_project w c project_path then Some name else None
            | Raise _ => Some name
            end
        end, w).
Proof.
  intros Hget Hname.
  unfold run, lookup_cached, bind, lift, ret, is_cwd_under_project.
  simpl Py.contains_str. unfold Py.dict_has. rewrite Hget.
  simpl Py.getitem. rewrite Hget, Hname.
  destruct (cwd_given cwd) as [c|]; [|reflexivity].
  destruct entry as [| | | | |e]; try discriminate.
  simpl. unfold Py.dict_has.
  destruct (Py.dict_get "project_path" e) as [pp|]; [|reflexivity].
  destruct (under_project w c pp); reflexivity.
Qed.

Lemma lookup_cached_absent (cache : dict) (session_id : string)
      (cwd : option string) (w : World) :
  Py.dict_get session_id cache = None ->
  run (lookup_cached (JObj cache) session_id cwd) w = (Ok None, w).
Proof.
  intros Hget. unfold run, lookup_cached, bind, lift, ret.
  simpl. unfold Py.dict_has. now rewrite Hget.
Qed.

Lemma cache_trusted_lookup (w : World) (cwd : option string) (entry name : json) :
  Py.getitem entry "project_name" = Ok name ->
  cache_trusted w cwd entry ->
  match cwd_given cwd with
  | None => Some name
  | Some c =>
      match Py.getitem entry "project_path" with
      | Ok project_path =>
          if under_project w c project_path then Some name else None
      | Raise _ => Some name
      end
  end = Some name.
Proof.
  intros Hname [Hnone|[(c & Hc & Hno)|(c & pp & Hc & Hpp & Hunder)]].
  - now rewrite Hnone.
  - rewrite Hc. destruct entry as [| | | | |e]; try discriminate.
    simpl in *. unfold Py.dict_has in Hno.
    destruct (Py.dict_get "project_path" e); [discriminate|reflexivity].
  - now rewrite Hc, Hpp, Hunder.
Qed.

Lemma run_auto_add (project_name folder_name : string) (w : World) :
  exists w',
    run (auto_add_project_to_replacements project_name folder_name) w = (Ok tt, w')
    /\ cache_file w' = cache_file w
    /\ cache_writable w' = cache_writable w
    /\ ticks w' = ticks w
    /\ clock w' = clock w
    /\ exists evs, trace w' = (evs ++ EvAutoAdd project_name :: trace w)%list.
Proof.
  unfold run, auto_add_project_to_replacements, load_replacements,
    write_replacements.
  unfold bind, emit, try_except, lift, ret.
  world_simpl.
  destruct (replacements_file w) as [| |doc];
    match goal with
    | |- context [add_project ?r ?p ?f] =>
        destruct (add_project r p f) as [[updated|]|]
    end;
    world_simpl;
    try (destruct (replacements_writable w));
    eexists; (split; [reflexivity|]); repeat (split; [reflexivity|]);
    first [now exists [] | now exists [EvWriteReplacements]].
Qed.

Lemma is_prefix_app (p l : list string) :
  is_prefix p l = true <-> exists rest, l = (p ++ rest)%list.
Proof.
  revert l. induction p as [|a p IH]; intros l; simpl.
  - split; [intros _; now exists l|reflexivity].
  - destruct l as [|b l]; [split; [discriminate|intros [rest H]; discriminate]|].
    rewrite andb_true_iff, String.eqb_eq, IH. split.
    + intros [-> [rest ->]]. now exists rest.
    + intros [rest H]. injection H as -> ->. split; [reflexivity|now exists rest].
Qed.

(** the test passes exactly when both paths resolve and the parts of the
    resolved [cwd] continue those of the resolved project path *)
Lemma under_project_spec (w : World) (cwd : string) (project_path : json) :
  under_project w cwd project_path = true
  <-> exists p project_parts rest,
        project_path = JStr p
        /\ path_resolve w p = Some project_parts
        /\ path_resolve w cwd = Some (project_parts ++ rest)%list.
Proof.
  unfold under_project. split.
  - destruct project_path as [| | |p| |]; try discriminate.
    destruct (path_resolve w cwd) as [c|] eqn:Hc; [|discriminate].
    destruct (path_resolve w p) as [pp|] eqn:Hp; [|discriminate].
    intros H. apply is_prefix_app in H as [rest ->].
    exists p, pp, rest. repeat split; assumption.
  - intros (p & pp & rest & -> & Hp & Hc). rewrite Hc, Hp.
    apply is_prefix_app. now exists rest.
Qed.

Lemma under_project_oracle (w w' : World) (cwd : string) (project_path : json) :
  path_resolve w' = path_resolve w ->
  under_project w' cwd project_path = under_project w cwd project_path.
Proof. intros H. unfold under_project. now rewrite H. Qed.

(** the recompute path: the session record is looked up and decides the
    name *)
Lemma run_resolve_from_session_file (cache : dict) (session_id : string)
      (cwd : option string) (w : World) :
  exists w' evs,
    run (resolve_from_session_file (JObj cache) session_id cwd) w
    = (Ok (name_from_session_record w session_id), w')
    /\ trace w' = (evs ++ EvGlob (session_id ++ ".jsonl") :: trace w)%list.
Proof.
  unfold run, resolve_from_session_file, search_session_file,
    name_from_session_record, glob_session.
  unfold bind at 1. unfold try_except. unfold bind at 1. unfold bind at 1.
  unfold emit. cbn [glob_projects set_trace].
  destruct (glob_projects w (session_id ++ ".jsonl")) as [[|folder_name rest]|].
  - eexists; exists []. split; reflexivity.
  - destruct (decode_project_folder_name folder_name) as [path|].
    + set (w0 := set_trace _ w).
      set (pn := project_name_of_path path).
      assert (Hval : forall k : M (option json),
                 bind (match cwd_given cwd with
                       | Some c => bind (is_cwd_under_project c (JStr path))
                                        (fun _ => ret tt)
                       | None => ret tt
                       end) (fun _ => k) w0 = k w0).
      { intros k. destruct (cwd_given cwd); reflexivity. }
      rewrite Hval.
      destruct (run_auto_add pn folder_name w0)
        as (w1 & Hrun & _ & _ & _ & _ & evs & Htr).
      unfold run in Hrun. unfold bind at 1. rewrite Hrun.
      unfold time_time, lift, save_project_cache, emit, ret. unfold bind.
      world_simpl. simpl Py.setitem. cbv iota beta.
      destruct (cache_writable w1); world_simpl.
      * eexists; exists (EvSaveCache :: evs ++ [EvAutoAdd pn])%list.
        split; [reflexivity|]. rewrite Htr. subst w0. simpl.
        now rewrite <- app_assoc.
      * eexists; exists (EvSaveCache :: evs ++ [EvAutoAdd pn])%list.
        split; [reflexivity|]. rewrite Htr. subst w0. simpl.
        now rewrite <- app_assoc.
    + eexists; exists []. split; reflexivity.
  - eexists; exists []. split; reflexivity.
Qed.

Lemma live_cache_world (w w1 : World) (r : result json) :
  run live_cache w = (r, w1) ->
  w1 = set_ticks (S (ticks w)) w
  /\ forall cache, r = Ok cache -> exists kept, cache = JObj kept.
Proof.
  rewrite run_live_cache.
  destruct (loaded_cache w) as [| | | | |items];
    try (intros H; injection H as <- <-; split; [reflexivity|discriminate]).
  destruct (clean_loop _ _ items []) as [kept|e];
    intros H; injection H as <- <-; (split; [reflexivity|]).
  - intros cache Hc. injection Hc as <-. now exists kept.
  - discriminate.
Qed.

(** ** C1: validation of the cached entry *)

(** C1.  For a session id with a live entry in the cache (one that the
    load-then-prune step keeps), [resolve_project_name] returns the cached
    project name and performs no session-record lookup whenever the [cwd]
    argument is absent (for the code: [None] or the empty string) or the
    stored [project_path] is an ancestor of, or equal to, the resolved
    [cwd] (or the entry stores no [project_path]); whenever a [cwd] is
    supplied and is not under the stored [project_path], the cached name
    is not used: the session record is looked up and decides the name.
    "Under" is the test of [is_cwd_under_project], on both paths resolved
    (see [under_project_spec]). *)
Theorem resolve_project_name_cache_validation
        (w w1 : World) (session_id : string) (cwd : option string)
        (cache : dict) (entry name : json) :
  run live_cache w = (Ok (JObj cache), w1) ->
  Py.dict_get session_id cache = Some entry ->
  Py.getitem entry "project_name" = Ok name ->
  (cache_trusted w cwd entry ->
   exists w',
     run (resolve_project_name session_id cwd) w = (Ok name, w')
     /\ trace w' = trace w)
  /\ (forall c project_path,
         cwd_given cwd = Some c ->
         Py.getitem entry "project_path" = Ok project_path ->
         under_project w c project_path = false ->
         exists w' evs,
           run (resolve_project_name session_id cwd) w
           = (Ok (name_from_session_record w session_id), w')
           /\ trace w'
              = (evs ++ EvGlob (session_id ++ ".jsonl") :: trace w)%list).
Proof.
  intros Hlive Hget Hname.
  destruct (live_cache_world _ _ _ Hlive) as [-> _].
  rewrite run_resolve_project_name, Hlive.
  rewrite (lookup_cached_entry _ _ _ _ _ _ Hget Hname).
  split.
  - intros Htrust.
    rewrite (cache_trusted_lookup (set_ticks (S (ticks w)) w) cwd entry name
               Hname Htrust).
    eexists. split; reflexivity.
  - intros c pp Hc Hpp Hunder.
    rewrite Hc, Hpp, (under_project_oracle w) by reflexivity.
    rewrite Hunder.
    destruct (run_resolve_from_session_file cache session_id cwd
                (set_ticks (S (ticks w)) w)) as (w' & evs & Hrun & Htr).
    exists w', evs. split; assumption.
Qed.

Lemma resolve_project_name_cache_validation_witness :
  (exists w',
      run (resolve_project_name "s1" (Some "/Users/helmi/code/zero/src"))
          demo_world
      = (Ok (JStr "zero"), w')
      /\ trace w' = trace demo_world)
  /\ (exists w' evs,
         run (resolve_project_name "s1" (Some "/tmp/elsewhere")) demo_world
         = (Ok (name_from_session_record demo_world "s1"), w')
         /\ trace w' = (evs ++ EvGlob ("s1" ++ ".jsonl") :: trace demo_world)%list).
Proof.
  split.
  - refine (proj1 (resolve_project_name_cache_validation
                     demo_world _ "s1" (Some "/Users/helmi/code/zero/src")
                     _ _ (JStr "zero") eq_refl eq_refl eq_refl) _).
    right; right.
    exists "/Users/helmi/code/zero/src", (JStr "/Users/helmi/code/zero").
    repeat split; reflexivity.
  - refine (proj2 (resolve_project_name_cache_validation
                     demo_world _ "s1" (Some "/tmp/elsewhere")
                     _ _ (JStr "zero") eq_refl eq_refl eq_refl)
                  "/tmp/elsewhere" (JStr "/Users/helmi/code/zero")
                  eq_refl eq_refl eq_refl).
Defined.

(** ** C10: a cache hit persists nothing *)

(** C10.  Whenever [resolve_project_name] returns a cached name (the
    session id is in the live cache and the [cwd] check passes or is
    skipped) it persists nothing: the project-cache file and the
    replacements document are as before (so what was pruned in memory is
    still on disk and the timestamp of the entry is not renewed) and no
    call of [save_project_cache] or [auto_add_project_to_replacements] is
    made.  Any change to the two documents and any such call happens on
    the recompute path only, after the lookup of the session record. *)
Theorem cache_hit_persists_nothing
        (w : World) (session_id : string) (cwd : option string) :
  (forall (w1 : World) (cache : dict) (entry name : json),
      run live_cache w = (Ok (JObj cache), w1) ->
      Py.dict_get session_id cache = Some entry ->
      Py.getitem entry "project_name" = Ok name ->
      cache_trusted w cwd entry ->
      exists w',
        run (resolve_project_name session_id cwd) w = (Ok name, w')
        /\ cache_file w' = cache_file w
        /\ replacements_file w' = replacements_file w
        /\ trace w' = trace w)
  /\ (forall (r : result json) (w' : World),
         run (resolve_project_name session_id cwd) w = (r, w') ->
         cache_file w' <> cache_file w
         \/ replacements_file w' <> replacements_file w
         \/ trace w' <> trace w ->
         exists cache w1 evs,
           run live_cache w = (Ok cache, w1)
           /\ run (lookup_cached cache session_id cwd) w1 = (Ok None, w1)
           /\ trace w'
              = (evs ++ EvGlob (session_id ++ ".jsonl") :: trace w)%list).
Proof.
  split.
  - intros w1 cache entry name Hlive Hget Hname Htrust.
    destruct (live_cache_world _ _ _ Hlive) as [-> _].
    rewrite run_resolve_project_name, Hlive.
    rewrite (lookup_cached_entry _ _ _ _ _ _ Hget Hname).
    rewrite (cache_trusted_lookup (set_ticks (S (ticks w)) w) cwd entry name
               Hname Htrust).
    eexists. repeat split; reflexivity.
  - intros r w' Hrun Hchanged.
    rewrite run_resolve_project_name in Hrun.
    destruct (run live_cache w) as [[cache|e] w1] eqn:Hlive.
    + destruct (live_cache_world _ _ _ Hlive) as [-> Hobj].
      destruct (Hobj cache eq_refl) as [kept ->].
      destruct (run (lookup_cached (JObj kept) session_id cwd)
                    (set_ticks (S (ticks w)) w)) as [[[n|]|e] w2] eqn:Hlook;
        pose proof (lookup_cached_pure _ _ _ _ _ _ Hlook) as ->.
      * injection Hrun as <- <-. world_simpl. tauto.
      * destruct (run_resolve_from_session_file kept session_id cwd
                    (set_ticks (S (ticks w)) w)) as (w2 & evs & Hrec & Htr).
        rewrite Hrec in Hrun. injection Hrun as <- <-.
        exists (JObj kept), (set_ticks (S (ticks w)) w), evs.
        repeat split; assumption.
      * injection Hrun as <- <-. world_simpl. tauto.
    + destruct (live_cache_world _ _ _ Hlive) as [-> _].
      injection Hrun as <- <-. world_simpl. tauto.
Qed.

Lemma cache_hit_persists_nothing_witness :
  (exists w',
      run (resolve_project_name "s1" None) demo_world = (Ok (JStr "zero"), w')
      /\ cache_file w' = cache_file demo_world
      /\ replacements_file w' = replacements_file demo_world
      /\ trace w' = trace demo_world)
  /\ (exists cache w1 evs,
         run live_cache demo_world = (Ok cache, w1)
         /\ run (lookup_cached cache "s1" (Some "/tmp/elsewhere")) w1
            = (Ok None, w1)
         /\ trace (snd (run (resolve_project_name "s1" (Some "/tmp/elsewhere"))
                            demo_world))
            = (evs ++ EvGlob ("s1" ++ ".jsonl") :: trace demo_world)%list).
Proof.
  split.
  - refine (proj1 (cache_hit_persists_nothing demo_world "s1" None)
                  _ _ _ (JStr "zero") eq_refl eq_refl eq_refl _).
    now left.
  - refine (proj2 (cache_hit_persists_nothing demo_world "s1"
                     (Some "/tmp/elsewhere"))
                  _ _ (surjective_pairing _) _).
    right; right. vm_compute. discriminate.
Defined.

Lemma load_prune_expiry_witness :
  exists kept,
    fst (run live_cache demo_world) = Ok (JObj kept)
    /\ Py.dict_get "old-session" kept = None
    /\ Py.dict_get "s1" kept
       = Some (JObj [("project_name", JStr "zero");
                     ("timestamp", JNum 1699990000);
                     ("project_path", JStr "/Users/helmi/code/zero");
                     ("claude_folder", JStr "-Users-helmi-code-zero")]).
Proof.
  destruct (load_prune_expiry demo_world _ _ eq_refl)
    as (items & kept & Hitems & Hkept & _ & Hages).
  injection Hitems as <-.
  assert (Hwf : Py.dict_wf
                  [("old-session",
                    JObj [("project_name", JStr "legacy");
                          ("timestamp", JNum 1000);
                          ("project_path", JStr "/Users/helmi/code/legacy");
                          ("claude_folder", JStr "-Users-helmi-code-legacy")]);
                   ("s1",
                    JObj [("project_name", JStr "zero");
                          ("timestamp", JNum 1699990000);
                          ("project_path", JStr "/Users/helmi/code/zero");
                          ("claude_folder", JStr "-Users-helmi-code-zero")])]).
  { unfold Py.dict_wf. simpl. repeat constructor; simpl; intuition discriminate. }
  exists kept. repeat split.
  - rewrite <- Hkept. reflexivity.
  - destruct (Hages Hwf "old-session" _ eq_refl) as (t & Ht & Hold & _).
    injection Ht as <-. apply Hold. simpl. lia.
  - destruct (Hages Hwf "s1" _ eq_refl) as (t & Ht & _ & Hnew).
    injection Ht as <-. apply Hnew. simpl. lia.
Defined.

(** ** C6: what reaches the caller *)

Lemma clean_loop_total (current_time expiry_seconds : Z) (items acc : dict) :
  Forall (fun kv => exists t, entry_timestamp (snd kv) = Ok t) items ->
  exists kept, clean_loop current_time expiry_seconds items acc = Ok kept.
Proof.
  revert acc. induction items as [|[k d] rest IH]; intros acc Hall; simpl.
  - now exists acc.
  - inversion Hall as [|? ? [t Ht] Hrest]; subst. simpl in Ht. rewrite Ht.
    apply IH. assumption.
Qed.

(** on a missing, an unreadable or a well-formed cache document the
    resolver returns a name *)
Lemma resolve_project_name_returns (w : World) (session_id : string)
      (cwd : option string) :
  well_formed_cache (loaded_cache w) ->
  exists name w', run (resolve_project_name session_id cwd) w = (Ok name, w').
Proof.
  intros (items & Hdoc & Hall).
  rewrite run_resolve_project_name, run_live_cache, Hdoc.
  destruct (clean_loop_total (clock w (ticks w)) (7 * 24 * 60 * 60) items [])
    as [kept Hkept].
  { eapply Forall_impl; [|exact Hall]. now intros kv [Ht _]. }
  rewrite Hkept.
  destruct (Py.dict_get session_id kept) as [entry|] eqn:Hget.
  - destruct (clean_loop_sound _ _ _ _ _ Hkept _ _ Hget) as [Hnil|[Hin _]];
      [discriminate|].
    rewrite Forall_forall in Hall.
    destruct (Hall _ Hin) as [_ [name Hname]]. simpl in Hname.
    rewrite (lookup_cached_entry _ _ _ _ _ _ Hget Hname).
    destruct (run_resolve_from_session_file kept session_id cwd
                (set_ticks (S (ticks w)) w)) as (w' & evs & Hrun & _).
    destruct (cwd_given cwd) as [c|]; [|eauto].
    destruct (Py.getitem entry "project_path") as [pp|]; [|eauto].
    destruct (under_project _ c pp); [eauto|].
    rewrite Hrun. eauto.
  - rewrite (lookup_cached_absent _ _ _ _ Hget).
    destruct (run_resolve_from_session_file kept session_id cwd
                (set_ticks (S (ticks w)) w)) as (w' & evs & Hrun & _).
    rewrite Hrun. eauto.
Qed.

Lemma resolve_project_name_without_cache (w : World) (session_id : string)
      (cwd : option string) :
  cache_file w = Missing \/ cache_file w = Unreadable ->
  exists w',
    run (resolve_project_name session_id cwd) w
    = (Ok (name_from_session_record w session_id), w').
Proof.
  intros Hfile.
  assert (Hdoc : loaded_cache w = JObj []).
  { unfold loaded_cache. destruct Hfile as [-> | ->]; reflexivity. }
  rewrite run_resolve_project_name, run_live_cache, Hdoc.
  cbn [clean_loop]. cbv iota.
  rewrite (lookup_cached_absent [] session_id cwd _ eq_refl).
  destruct (run_resolve_from_session_file [] session_id cwd
              (set_ticks (S (ticks w)) w)) as (w' & evs & Hrun & _).
  rewrite Hrun. eauto.
Qed.

(** C6.  The claim fails on the code: a cache document that parses but
    has another shape makes [resolve_project_name] raise to its caller.
    A string in [timestamp] raises [TypeError] at line 231, a document
    that is a list [AttributeError] at line 230, an entry that is [null]
    [AttributeError] at line 231, and a live entry without [project_name]
    [KeyError] at line 322; none of these lines is inside a [try]. *)
Theorem resolve_project_name_raises_on_malformed_cache :
  fst (run (resolve_project_name "s1" None)
           (cache_world
              (JObj [("s1", JObj [("project_name", JStr "demo");
                                  ("timestamp", JStr "2025-01-01T00:00:00")])])))
  = Raise TypeError
  /\ fst (run (resolve_project_name "s1" None) (cache_world (JArr [])))
     = Raise AttributeError
  /\ fst (run (resolve_project_name "s1" None)
              (cache_world (JObj [("s1", JNull)])))
     = Raise AttributeError
  /\ fst (run (resolve_project_name "s1" None)
              (cache_world (JObj [("s1", JObj [("timestamp", JNum 1699990000)])])))
     = Raise KeyError.
Proof. repeat split; reflexivity. Qed.

(** ** Prefixes and substrings *)

Lemma prefix_app (p s : string) : String.prefix p (p ++ s) = true.
Proof.
  induction p as [|c t IH]; simpl; [apply prefix_empty|].
  destruct (ascii_dec c c); [exact IH|contradiction].
Qed.

Lemma contains_app_l (x a s : string) :
  contains x s = true -> contains x (a ++ s) = true.
Proof.
  intros H. induction a as [|c t IH]; simpl; [exact H|].
  rewrite IH. apply orb_true_r.
Qed.

Lemma bracket_prefixed (d rest : string) :
  prefixed d (JStr ("[" ++ d ++ "] " ++ rest)) = true.
Proof.
  unfold prefixed, startswith.
  replace ("[" ++ d ++ "] " ++ rest) with (("[" ++ d ++ "] ") ++ rest).
  - apply prefix_app.
  - simpl. f_equal. induction d as [|c t IH]; simpl; [reflexivity|now rewrite IH].
Qed.

(** ** C7: [rm important.txt] *)

(** C7.  For every [PreToolUse] event of the [Bash] tool whose command is
    exactly [rm important.txt], the classification is category
    [tool_activity], a display message that contains
    [Running rm on important.txt] and a TTS text that contains
    [removing important.txt]. *)
Theorem classify_rm_important_txt (d : string) (hook_data : dict) :
  Py.eq_str (hook_type_of hook_data) "PreToolUse" = true ->
  Py.eq_str (tool_name_of hook_data) "Bash" = true ->
  Py.get (parameters_of hook_data) "command" (JStr EmptyString)
  = Ok (JStr "rm important.txt") ->
  exists message tts,
    classify d hook_data
    = Ok (Locals (Some "tool_activity") (Some (JStr message)) (Some tts))
    /\ intent (Locals (Some "tool_activity") (Some (JStr message)) (Some tts))
       = Some ("tool_activity", JStr message, Some tts)
    /\ message = "[" ++ d ++ "] Running rm on important.txt"
    /\ tts = d ++ ", removing important.txt"
    /\ contains "Running rm on important.txt" message = true
    /\ contains "removing important.txt" tts = true.
Proof.
  intros Hkind Htool Hcmd.
  exists ("[" ++ d ++ "] Running rm on important.txt"),
         (d ++ ", removing important.txt").
  repeat split.
  - unfold classify. rewrite Hkind, Htool, Hcmd. reflexivity.
  - apply (contains_app_l _ "["), contains_app_l. reflexivity.
  - apply contains_app_l. reflexivity.
Qed.

Lemma classify_rm_important_txt_witness :
  exists message tts,
    classify "zero" (bash_hook "rm important.txt")
    = Ok (Locals (Some "tool_activity") (Some (JStr message)) (Some tts))
    /\ intent (Locals (Some "tool_activity") (Some (JStr message)) (Some tts))
       = Some ("tool_activity", JStr message, Some tts)
    /\ message = "[" ++ "zero" ++ "] Running rm on important.txt"
    /\ tts = "zero" ++ ", removing important.txt"
    /\ contains "Running rm on important.txt" message = true
    /\ contains "removing important.txt" tts = true.
Proof.
  exact (classify_rm_important_txt "zero" (bash_hook "rm important.txt")
           eq_refl eq_refl eq_refl).
Defined.

(** ** C3: the filter of shell commands *)

Lemma lstrip_no_space (c : ascii) (t : string) :
  is_space c = false -> lstrip (String c t) = String c t.
Proof. intros H. simpl. now rewrite H. Qed.

Lemma prefix_rstrip (p s : string) :
  no_space p = true ->
  String.prefix p s = true -> String.prefix p (rstrip s) = true.
Proof.
  revert p. induction s as [|b s' IH]; intros p Hns Hp.
  - exact Hp.
  - destruct p as [|a p']; [apply prefix_empty|].
    simpl in Hp, Hns. apply andb_true_iff in Hns as [Ha Hp'].
    destruct (ascii_dec a b) as [->|]; [|discriminate].
    specialize (IH p' Hp' Hp). simpl.
    destruct (rstrip s') as [|r0 r] eqn:Er.
    + destruct p'; [|discriminate].
      apply negb_true_iff in Ha. rewrite Ha. simpl.
      destruct (ascii_dec b b); [reflexivity|contradiction].
    + simpl. destruct (ascii_dec b b); [exact IH|contradiction].
Qed.

Lemma startswith_strip (p command : string) :
  no_space p = true -> p <> EmptyString ->
  startswith command p = true -> startswith (strip command) p = true.
Proof.
  unfold startswith, strip. intros Hns Hne Hp.
  destruct p as [|a p']; [contradiction|].
  destruct command as [|c t]; [discriminate|].
  simpl in Hp. destruct (ascii_dec a c) as [->|]; [|discriminate].
  simpl in Hns. apply andb_true_iff in Hns as [Hc Hp'].
  apply negb_true_iff in Hc. rewrite (lstrip_no_space _ _ Hc).
  apply prefix_rstrip.
  - simpl. now rewrite Hc, Hp'.
  - simpl. destruct (ascii_dec c c); [exact Hp|contradiction].
Qed.

Lemma safe_prefix_strip (command : string) :
  existsb (fun prefix => startswith command prefix) safe_prefixes = true ->
  existsb (fun prefix => startswith (strip command) prefix) safe_prefixes = true.
Proof.
  intros H. apply existsb_exists in H as (p & Hin & Hp).
  apply existsb_exists. exists p. split; [assumption|].
  apply startswith_strip; [| |assumption];
    simpl in Hin; repeat (destruct Hin as [<-|Hin]; [first [reflexivity|discriminate]|]);
    contradiction.
Qed.

(** C3, as the code has it.  For every [PreToolUse] event of the [Bash]
    tool: if the command, with the whitespace around it stripped, starts
    with one of the safe prefixes, no notification is produced (so also
    when the command as it is starts with one); otherwise a notification,
    of category [tool_activity], is produced if and only if the command
    contains one of the markers. *)
Theorem classify_bash_filter (d : string) (hook_data : dict) (command : string) :
  Py.eq_str (hook_type_of hook_data) "PreToolUse" = true ->
  Py.eq_str (tool_name_of hook_data) "Bash" = true ->
  Py.get (parameters_of hook_data) "command" (JStr EmptyString)
  = Ok (JStr command) ->
  let safe :=
    existsb (fun prefix => startswith (strip command) prefix) safe_prefixes in
  let dangerous :=
    existsb (fun prefix => contains prefix command) dangerous_prefixes in
  exists c,
    classify d hook_data = Ok c
    /\ (safe = true -> intent c = None)
    /\ (existsb (fun prefix => startswith command prefix) safe_prefixes = true ->
        intent c = None)
    /\ (safe = false ->
        (dangerous = true ->
         exists message tts, intent c = Some ("tool_activity", message, tts))
        /\ (dangerous = false -> intent c = None)).
Proof.
  intros Hkind Htool Hcmd safe dangerous.
  exists (classify_bash d command).
  assert (Hsafe : safe = true -> intent (classify_bash d command) = None).
  { intros Hs. unfold classify_bash. fold safe. now rewrite Hs. }
  split; [|split; [exact Hsafe|split]].
  - unfold classify. now rewrite Hkind, Htool, Hcmd.
  - intros Hlit. apply Hsafe. now apply safe_prefix_strip.
  - intros Hs. unfold classify_bash. fold safe dangerous. rewrite Hs.
    split; intros Hd; rewrite Hd.
    + destruct (given (command_target (split_ws command))); simpl; eauto.
    + reflexivity.
Qed.

Lemma classify_bash_filter_witness :
  (exists c,
      classify "zero" (bash_hook " echo hi > out.txt") = Ok c
      /\ intent c = None)
  /\ (exists c message tts,
         classify "zero" (bash_hook "rm -rf build") = Ok c
         /\ intent c = Some ("tool_activity", message, tts))
  /\ (exists c,
         classify "zero" (bash_hook "git status") = Ok c
         /\ intent c = None).
Proof.
  split; [|split].
  - destruct (classify_bash_filter "zero" (bash_hook " echo hi > out.txt")
                " echo hi > out.txt" eq_refl eq_refl eq_refl)
      as (c & Hc & Hsafe & _).
    exists c. split; [exact Hc|]. apply Hsafe. reflexivity.
  - destruct (classify_bash_filter "zero" (bash_hook "rm -rf build")
                "rm -rf build" eq_refl eq_refl eq_refl)
      as (c & Hc & _ & _ & Hrest).
    destruct (proj1 (Hrest eq_refl) eq_refl) as (message & tts & Hi).
    exists c, message, tts. split; assumption.
  - destruct (classify_bash_filter "zero" (bash_hook "git status")
                "git status" eq_refl eq_refl eq_refl)
      as (c & Hc & _ & _ & Hrest).
    exists c. split; [exact Hc|]. apply (proj2 (Hrest eq_refl)). reflexivity.
Defined.

(** C3 as stated fails: this command does not start with a safe prefix and
    contains the marker [>], and no notification is produced, because the
    code strips the command before it tests the prefixes. *)
Lemma classify_bash_leading_space_counterexample :
  existsb (fun prefix => startswith " echo hi > out.txt" prefix) safe_prefixes
  = false
  /\ existsb (fun prefix => contains prefix " echo hi > out.txt")
             dangerous_prefixes = true
  /\ classify "zero" (bash_hook " echo hi > out.txt") = Ok Returned
  /\ intent Returned = None.
Proof. repeat split; reflexivity. Qed.

(** ** C2: the bracketed project name *)

(** the alias of a project name: the value of the first key equal to it
    up to case, the name itself when there is none *)
Lemma apply_project_name_replacement_table (project_name : string)
      (table : dict) (others : dict) :
  apply_project_name_replacement project_name
    (JObj (("project_names", JObj [("replacements", JObj table)]) :: others))
  = Ok match first_ci_match project_name table with
       | Some replacement => replacement
       | None => JStr project_name
       end.
Proof. reflexivity. Qed.

(** C2 as stated fails: the message of a [PreCompact] event and the
    message of the error branch of [Notification] carry no bracketed
    project name. *)
Lemma display_message_prefix_counterexample :
  classify "zero" [("hook_event_name", JStr "PreCompact")]
  = Ok (Locals (Some "compaction") (Some (JStr "Context compaction starting")) None)
  /\ intent (Locals (Some "compaction")
                    (Some (JStr "Context compaction starting")) None)
     = Some ("compaction", JStr "Context compaction starting", None)
  /\ prefixed "zero" (JStr "Context compaction starting") = false
  /\ classify "zero" [("hook_event_name", JStr "Notification");
                      ("notification_type", JStr "error");
                      ("message", JStr "Build failed")]
     = Ok (Locals (Some "error") (Some (JStr "Build failed")) None)
  /\ intent (Locals (Some "error") (Some (JStr "Build failed")) None)
     = Some ("error", JStr "Build failed", None)
  /\ prefixed "zero" (JStr "Build failed") = false.
Proof. repeat split; reflexivity. Qed.

Ltac intent_inv H :=
  simpl in H; injection H as <- <- <-.

(** C2, as the code has it.  Every display message that the classifier
    emits begins with the alias-applied project name in square brackets,
    except the two that are emitted as they are: the fixed message of a
    [PreCompact] event and, in the error branch of [Notification], the
    [message] field of the event. *)
Theorem display_message_prefix
        (d : string) (hook_data : dict) (c : classified)
        (event_type : string) (message : json) (custom_tts : option string) :
  classify d hook_data = Ok c ->
  intent c = Some (event_type, message, custom_tts) ->
  prefixed d message = true
  \/ (Py.eq_str (hook_type_of hook_data) "PreCompact" = true
      /\ event_type = "compaction"
      /\ message = JStr "Context compaction starting")
  \/ (Py.eq_str (hook_type_of hook_data) "Notification" = true
      /\ event_type = "error"
      /\ message = hook_get hook_data "message" (JStr "An error occurred")).
Proof.
  unfold classify. intros Hc Hi.
  destruct (Py.eq_str (hook_type_of hook_data) "PreToolUse").
  { destruct (Py.eq_str (tool_name_of hook_data) "Bash").
    - destruct (Py.get (parameters_of hook_data) "command" (JStr EmptyString))
        as [[| | |command| |]|]; try discriminate.
      injection Hc as <-. unfold classify_bash in Hi.
      destruct (existsb _ safe_prefixes); [discriminate|].
      destruct (existsb _ dangerous_prefixes); [|discriminate].
      left. destruct (given (command_target (split_ws command)));
        intent_inv Hi; apply bracket_prefixed.
    - destruct (existsb _ _).
      + destruct (Py.get (parameters_of hook_data) "file_path" (JStr EmptyString))
          as [file_path|]; [|discriminate].
        unfold classify_edit in Hc.
        destruct (any_in _ file_path) as [[|]|]; try discriminate.
        * destruct file_path as [| | |fp| |]; try discriminate.
          left.
          destruct (Py.eq_str (tool_name_of hook_data) "Write");
            [|destruct (Py.eq_str (tool_name_of hook_data) "MultiEdit")];
            injection Hc as <-; intent_inv Hi; apply bracket_prefixed.
        * injection Hc as <-. discriminate.
      + injection Hc as <-. discriminate. }
  destruct (Py.eq_str (hook_type_of hook_data) "PostToolUse").
  { injection Hc as <-. unfold classify_post in Hi.
    destruct (hook_get2 hook_data "response" "tool_response" (JObj []));
      try discriminate.
    destruct (_ || _); [|discriminate].
    left. intent_inv Hi. apply bracket_prefixed. }
  destruct (Py.eq_str (hook_type_of hook_data) "Stop").
  { injection Hc as <-. left. intent_inv Hi. apply bracket_prefixed. }
  destruct (Py.eq_str (hook_type_of hook_data) "SubagentStop").
  { injection Hc as <-. left. intent_inv Hi. apply bracket_prefixed. }
  destruct (Py.eq_str (hook_type_of hook_data) "PreCompact").
  { injection Hc as <-. right; left. intent_inv Hi. repeat split. }
  destruct (Py.eq_str (hook_type_of hook_data) "Notification");
    [|injection Hc as <-; discriminate].
  unfold classify_notification in Hc.
  destruct (hook_get hook_data "notification_type" (JStr EmptyString))
    as [| | |nt| |]; try discriminate.
  destruct (contains "error" (lower nt)).
  - injection Hc as <-. right; right. simpl in Hi.
    destruct (Py.truthy _); [|discriminate].
    injection Hi as <- <- <-. repeat split.
  - destruct (Py.contains_str "permission to use" _) as [[|]|]; try discriminate.
    + destruct (hook_get hook_data "message" (JStr EmptyString))
        as [| | |rm| |]; try discriminate.
      destruct (search_permission_tool rm);
        injection Hc as <-; left; intent_inv Hi; apply bracket_prefixed.
    + injection Hc as <-. left. intent_inv Hi. apply bracket_prefixed.
Qed.

Lemma display_message_prefix_witness :
  prefixed "zero" (JStr "[zero] Task complete") = true
  \/ (Py.eq_str (hook_type_of [("event", JStr "Stop")]) "PreCompact" = true
      /\ "execution_complete" = "compaction"
      /\ JStr "[zero] Task complete" = JStr "Context compaction starting")
  \/ (Py.eq_str (hook_type_of [("event", JStr "Stop")]) "Notification" = true
      /\ "execution_complete" = "error"
      /\ JStr "[zero] Task complete"
         = hook_get [("event", JStr "Stop")] "message" (JStr "An error occurred")).
Proof.
  exact (display_message_prefix "zero" [("event", JStr "Stop")] _
           "execution_complete" (JStr "[zero] Task complete")
           (Some "zero, task completed successfully") eq_refl eq_refl).
Defined.

(** ** The cache key *)






(** ** C5: the sound cache *)

Lemma run_get_notification_sound (h : NotificationHandler)
      (event_type custom_text : string) (w : World) :
  run (get_notification_sound h event_type custom_text) w
  = if negb (USE_TTS h) then (Ok None, w)
    else match tts_provider h with
         | None => (Ok None, w)
         | Some p =>
             let f := sound_file_name h p event_type custom_text in
             if str_in f (sounds w) then (Ok (Some f), w)
             else
               let wg :=
                 set_synth_calls (S (synth_calls w))
                   (set_trace
                      (EvGenerate (text_to_speak event_type custom_text) f
                       :: trace w) w) in
               match synth w (synth_calls w) with
               | SynthRaises => (Ok None, wg)
               | SynthDone pydub_missing =>
                   (Ok (Some f),
                    set_sounds
                      ((if String.eqb (format p) "mp3" && pydub_missing
                        then with_suffix f ".wav" else f) :: sounds wg) wg)
               | SynthTruncated pydub_missing =>
                   (Ok None,
                    set_sounds
                      ((if String.eqb (format p) "mp3" && pydub_missing
                        then with_suffix f ".wav" else f) :: sounds wg) wg)
               end
         end.
Proof.
  unfold run, get_notification_sound.
  destruct (USE_TTS h); cbn [negb]; cbv iota; [|reflexivity].
  destruct (tts_provider h) as [p|]; [|reflexivity].
  unfold generate, file_exists, write_sound, emit, ret, try_except.
  unfold bind. cbv beta zeta.
  destruct (str_in _ (sounds w)); [reflexivity|]. world_simpl.
  destruct (synth w (synth_calls w)) as [|pydub_missing|pydub_missing];
    [reflexivity| |];
    (destruct (String.eqb (format p) "mp3"); [destruct pydub_missing|]);
    reflexivity.
Qed.




(** ** C4: the [PreCompact] event *)


Lemma run_notify_then_sound (h : NotificationHandler) (d : string)
      (message : json) (event_type custom_text : string) (w : World) :
  run (notify d message ;;;
       sound_file <- get_notification_sound h event_type custom_text ;;
       match sound_file with
       | Some f => play_sound_file f
       | None => ret tt
       end) w
  = match run (get_notification_sound h event_type custom_text)
              (set_trace (EvNotify d message :: trace w) w) with
    | (Ok (Some f), w1) =>
        if str_in f (sounds w1)
        then (Ok tt, set_trace (EvPlay f :: trace w1) w1)
        else (Ok tt, w1)
    | (Ok None, w1) => (Ok tt, w1)
    | (Raise e, w1) => (Raise e, w1)
    end.
Proof.
  unfold run, notify, emit. unfold bind at 1. unfold bind at 1.
  destruct (get_notification_sound h event_type custom_text _)
    as [[[f|]|e] w1]; try reflexivity.
  unfold play_sound_file, file_exists, emit, ret, bind.
  destruct (str_in f (sounds w1)); reflexivity.
Qed.




(* ------------------------------------------------------------------ *)
(** * Further properties *)

(** ** Folder names and hyphens *)

Lemma join_split_replace (a b : ascii) (s : string) :
  join (String b EmptyString) (split_on a s) = replace_char a b s.
Proof.
  unfold join.
  induction s as [|c t IH]; simpl; [reflexivity|].
  pose proof (split_on_not_nil a t) as Hnil.
  destruct (split_on a t) as [|h r] eqn:E; [contradiction|].
  destruct (Ascii.eqb c a).
  - change (String.concat (String b EmptyString) (EmptyString :: h :: r))
      with (String b (String.concat (String b EmptyString) (h :: r))).
    now rewrite IH.
  - rewrite <- IH. destruct r; reflexivity.
Qed.

Lemma replace_char_twice (s : string) :
  replace_char "-" "/" (replace_char "/" "-" s) = replace_char "-" "/" s.
Proof.
  induction s as [|c t IH]; simpl; [reflexivity|].
  rewrite IH. f_equal.
  destruct (Ascii.eqb_spec c "/") as [->|Hs]; [reflexivity|].
  reflexivity.
Qed.

Lemma replace_char_fixed (a b : ascii) (s : string) :
  a <> b -> (replace_char a b s = s <-> has_char a s = false).
Proof.
  intros Hab. induction s as [|c t IH]; simpl; [tauto|].
  destruct (Ascii.eqb_spec c a) as [->|Hc]; simpl.
  - split; [|discriminate]. intros H. injection H as H _. congruence.
  - rewrite <- IH. split; [intros H; now injection H|intros ->; reflexivity].
Qed.

Lemma decode_marked (folder_name : string) :
  startswith folder_name "-" = true ->
  decode_project_folder_name folder_name
  = Some (String "/" (replace_char "-" "/" (drop 1 folder_name))).
Proof.
  intros Hm. unfold decode_project_folder_name.
  rewrite Hm. simpl negb. cbv iota. now rewrite join_split_replace.
Qed.

Lemma decode_encode_replace (path : string) :
  startswith path "/" = true ->
  decode_project_folder_name (encode_project_folder_name path)
  = Some (replace_char "-" "/" path).
Proof.
  intros Habs. unfold encode_project_folder_name.
  change ("-" ++ join "-" (split_on "/" (drop 1 path)))
    with (String "-" (join "-" (split_on "/" (drop 1 path)))).
  rewrite decode_marked by apply startswith_cons.
  change (drop 1 (String "-" ?x)) with x.
  rewrite join_split_replace, replace_char_twice.
  rewrite (startswith_char _ _ Habs) at 2. reflexivity.
Qed.

(** X1.  Decoding turns every hyphen of a folder name into a separator, so the
    path behind an encoded folder name comes back with its own hyphens
    replaced by ['/']: it is recovered exactly when it has none. *)
Theorem decode_turns_hyphens_into_separators :
  (forall folder_name : string,
      startswith folder_name "-" = true ->
      decode_project_folder_name folder_name
      = Some (String "/" (replace_char "-" "/" (drop 1 folder_name))))
  /\ (forall path : string,
         startswith path "/" = true ->
         decode_project_folder_name (encode_project_folder_name path)
         = Some (replace_char "-" "/" path)
         /\ (decode_project_folder_name (encode_project_folder_name path)
             = Some path
             <-> has_char "-" path = false)).
Proof.
  split; [exact decode_marked|].
  intros path Habs. rewrite (decode_encode_replace _ Habs).
  split; [reflexivity|]. split.
  - intros H. injection H as H. now apply (replace_char_fixed "-" "/").
  - intros H. f_equal. now apply (replace_char_fixed "-" "/").
Qed.

Lemma decode_turns_hyphens_into_separators_witness :
  decode_project_folder_name "-Users-helmi-code-paperless-ai"
  = Some "/Users/helmi/code/paperless/ai"
  /\ decode_project_folder_name
       (encode_project_folder_name "/Users/helmi/code/paperless-ai")
     = Some "/Users/helmi/code/paperless/ai".
Proof.
  destruct decode_turns_hyphens_into_separators as [Hdec Henc].
  split.
  - exact (Hdec "-Users-helmi-code-paperless-ai" eq_refl).
  - exact (proj1 (Henc "/Users/helmi/code/paperless-ai" eq_refl)).
Defined.

(** ** The name of a project path *)

Lemma split_on_pieces (sep : ascii) (s : string) :
  Forall (fun seg => has_char sep seg = false) (split_on sep s).
Proof.
  induction s as [|c t IH]; simpl.
  - repeat constructor.
  - destruct (Ascii.eqb c sep) eqn:Ec.
    + constructor; [reflexivity|exact IH].
    + destruct (split_on sep t) as [|h r]; inversion IH; subst;
        constructor; simpl; rewrite ?Ec; auto.
Qed.

Lemma segments_plain (s : string) :
  Forall (fun seg => seg <> EmptyString /\ has_char "/" seg = false)
         (PurePath.segments s).
Proof.
  unfold PurePath.segments. apply Forall_forall. intros seg Hin.
  apply filter_In in Hin as [Hin Hkeep].
  pose proof (split_on_pieces "/" s) as Hall.
  rewrite Forall_forall in Hall. split; [|now apply Hall].
  intros ->. discriminate.
Qed.

Lemma remaining_after_parent_suffix (l rem : list string) :
  remaining_after_parent l = Some rem ->
  rem <> [] /\ forall x, In x rem -> In x l.
Proof.
  induction l as [|part rest IH]; cbn [remaining_after_parent]; [discriminate|].
  destruct (str_in part common_parents && negb (Nat.eqb (List.length rest) 0))
    eqn:E.
  - intros H. injection H as <-. apply andb_true_iff in E as [_ E].
    split; [destruct rest; discriminate|intros x Hx; now right].
  - intros H. destruct (IH H) as [Hne Hin].
    split; [assumption|intros x Hx; right; auto].
Qed.

Lemma root_cases (s : string) :
  PurePath.root s = [] \/ PurePath.root s = ["/"] \/ PurePath.root s = ["//"].
Proof.
  unfold PurePath.root.
  repeat match goal with
         | |- context [match ?x with _ => _ end] => destruct x
         end; auto.
Qed.

Lemma remaining_after_parent_parts (s : string) :
  remaining_after_parent (PurePath.parts s)
  = remaining_after_parent (PurePath.segments s).
Proof.
  unfold PurePath.parts.
  destruct (root_cases s) as [-> | [-> | ->]]; reflexivity.
Qed.

Lemma has_char_app (c : ascii) (x y : string) :
  has_char c (x ++ y) = has_char c x || has_char c y.
Proof.
  induction x as [|a t IH]; simpl; [reflexivity|].
  now rewrite IH, orb_assoc.
Qed.

Lemma last_In (l : list string) (d : string) : l <> [] -> In (last l d) l.
Proof.
  induction l as [|a [|b r] IH]; intros H; [contradiction|now left|].
  right. apply IH. discriminate.
Qed.

(** X2.  The project name that the resolver takes from a decoded path never
    contains a separator, and it is empty exactly when the path has no
    component at all (the root, or only [.] components). *)
Theorem project_name_of_path_shape (actual_project_path : string) :
  has_char "/" (project_name_of_path actual_project_path) = false
  /\ (project_name_of_path actual_project_path = EmptyString
      <-> PurePath.segments actual_project_path = []).
Proof.
  unfold project_name_of_path. rewrite remaining_after_parent_parts.
  unfold PurePath.name.
  pose proof (segments_plain actual_project_path) as Hplain.
  set (segs := PurePath.segments actual_project_path) in *.
  rewrite Forall_forall in Hplain.
  destruct (remaining_after_parent segs) as [rem|] eqn:Erem.
  - destruct (remaining_after_parent_suffix _ _ Erem) as [Hne Hin].
    assert (Hsegs : segs <> []).
    { destruct rem as [|a r]; [contradiction|].
      intros E. specialize (Hin a (or_introl eq_refl)).
      rewrite E in Hin. contradiction. }
    assert (Hrem : forall x, In x rem ->
                             x <> EmptyString /\ has_char "/" x = false)
      by (intros x Hx; auto).
    destruct rem as [|a [|b [|c r]]]; [contradiction| | |].
    + simpl. destruct (Hrem a (or_introl eq_refl)) as [Ha Hs].
      split; [exact Hs|]. split; intros H; contradiction.
    + simpl. destruct (Hrem a (or_introl eq_refl)) as [Ha Hsa].
      destruct (Hrem b (or_intror (or_introl eq_refl))) as [Hb Hsb].
      unfold join. simpl String.concat.
      rewrite has_char_app, Hsa. simpl. rewrite Hsb.
      split; [reflexivity|]. split; intros H; [|contradiction].
      destruct a; [contradiction|discriminate].
    + assert (Hl : In (last (a :: b :: c :: r) EmptyString) (a :: b :: c :: r))
        by (apply last_In; discriminate).
      destruct (Hrem _ Hl) as [Hn Hs].
      change (Nat.eqb (List.length (a :: b :: c :: r)) 1) with false.
      change (Nat.eqb (List.length (a :: b :: c :: r)) 2) with false.
      cbv iota. split; [exact Hs|]. split; intros H; contradiction.
  - destruct segs as [|a r] eqn:Es.
    + simpl. split; [reflexivity|]. split; reflexivity.
    + assert (Hl : In (last (a :: r) EmptyString) (a :: r))
        by (apply last_In; discriminate).
      destruct (Hplain _ Hl) as [Hn Hs].
      split; [exact Hs|]. split; intros H; [contradiction|discriminate].
Qed.

(** ** Hyphenated project names *)

Lemma replace_char_app (a b : ascii) (x y : string) :
  replace_char a b (x ++ y) = replace_char a b x ++ replace_char a b y.
Proof. induction x as [|c t IH]; simpl; [reflexivity|now rewrite IH]. Qed.

Lemma replace_char_absent (a b : ascii) (s : string) :
  has_char a s = false -> replace_char a b s = s.
Proof.
  induction s as [|c t IH]; simpl; [reflexivity|].
  intros H. apply orb_false_iff in H as [Hc Ht]. now rewrite Hc, IH.
Qed.

Lemma string_app_assoc (x y z : string) : (x ++ y) ++ z = x ++ (y ++ z).
Proof. induction x as [|c t IH]; simpl; [reflexivity|now rewrite IH]. Qed.

Lemma join_app (sep : string) (l1 l2 : list string) :
  l1 <> [] -> l2 <> [] ->
  join sep (l1 ++ l2) = join sep l1 ++ sep ++ join sep l2.
Proof.
  unfold join. intros H1 H2.
  induction l1 as [|x [|y r] IH]; [contradiction| |].
  - destruct l2; [contradiction|reflexivity].
  - change (String.concat sep ((x :: y :: r) ++ l2))
      with (x ++ sep ++ String.concat sep ((y :: r) ++ l2)).
    rewrite IH by discriminate.
    change (String.concat sep (x :: y :: r))
      with (x ++ sep ++ String.concat sep (y :: r)).
    now rewrite !string_app_assoc.
Qed.

Lemma has_char_join (a : ascii) (sep : string) (l : list string) :
  has_char a sep = false ->
  Forall (fun seg => has_char a seg = false) l ->
  has_char a (join sep l) = false.
Proof.
  unfold join. intros Hsep Hall.
  induction Hall as [|x r Hx Hr IH]; [reflexivity|].
  destruct r as [|y r']; [exact Hx|].
  change (String.concat sep (x :: y :: r'))
    with (x ++ sep ++ String.concat sep (y :: r')).
  now rewrite !has_char_app, Hx, Hsep, IH.
Qed.

Lemma plain_segment_true (seg : string) :
  plain_segment seg = true ->
  seg <> EmptyString /\ seg <> "." /\ has_char "/" seg = false
  /\ has_char "-" seg = false.
Proof.
  unfold plain_segment. rewrite !andb_true_iff, !negb_true_iff.
  intros [[[H1 H2] H3] H4]. repeat split; try assumption.
  - intros ->. discriminate.
  - intros ->. discriminate.
Qed.

Lemma common_parent_plain (parent : string) :
  str_in parent common_parents = true -> plain_segment parent = true.
Proof.
  unfold str_in. intros H. apply existsb_exists in H as (p & Hin & Hp).
  apply String.eqb_eq in Hp. subst p.
  simpl in Hin.
  repeat (destruct Hin as [<-|Hin]; [reflexivity|]). contradiction.
Qed.

Lemma filter_plain (l : list string) :
  Forall (fun seg => plain_segment seg = true) l ->
  filter (fun p => negb (String.eqb p EmptyString) && negb (String.eqb p ".")) l
  = l.
Proof.
  intros Hall. induction Hall as [|x r Hx Hr IH]; [reflexivity|].
  destruct (plain_segment_true _ Hx) as (H1 & H2 & _ & _).
  cbn [filter]. apply String.eqb_neq in H1, H2. rewrite H1, H2. simpl.
  now rewrite IH.
Qed.

Lemma segments_of_plain (l : list string) :
  l <> [] ->
  Forall (fun seg => plain_segment seg = true) l ->
  PurePath.segments (String "/" (join "/" l)) = l.
Proof.
  intros Hne Hall. unfold PurePath.segments.
  cbn [split_on]. rewrite Ascii.eqb_refl.
  rewrite split_on_join.
  - rewrite <- (filter_plain l Hall) at 2. reflexivity.
  - assumption.
  - eapply Forall_impl; [|exact Hall].
    intros seg Hs. now destruct (plain_segment_true _ Hs) as (_ & _ & H & _).
Qed.

Lemma remaining_after_parent_found (pre : list string) (parent : string)
      (rest : list string) :
  Forall (fun seg => str_in seg common_parents = false) pre ->
  str_in parent common_parents = true ->
  rest <> [] ->
  remaining_after_parent (pre ++ parent :: rest) = Some rest.
Proof.
  intros Hpre Hparent Hrest.
  induction Hpre as [|x r Hx Hr IH]; cbn [app remaining_after_parent].
  - rewrite Hparent. destruct rest; [contradiction|reflexivity].
  - rewrite Hx. exact IH.
Qed.

(** X3.  Take a project folder directly under a common parent directory
    ([code], [projects], ...), where no directory above that parent is a
    common parent itself, no directory name above the project is empty,
    [.] or contains a hyphen, and the folder name joins with hyphens one
    or more pieces that are not empty, not [.] and free of hyphens.  Decoding the encoded path
    splits the folder at its hyphens; the project is still named after
    its folder when the folder name has at most one hyphen (the two-part
    rule joins the parts again), and with two hyphens or more only the
    last piece of the folder name is left. *)
Theorem hyphenated_project_under_common_parent
        (pre : list string) (parent : string) (pieces : list string) :
  Forall (fun seg => plain_segment seg = true) (pre ++ pieces) ->
  Forall (fun seg => str_in seg common_parents = false) pre ->
  str_in parent common_parents = true ->
  pieces <> [] ->
  let project_folder := join "-" pieces in
  let path := String "/" (join "/" (pre ++ [parent; project_folder])) in
  exists decoded,
    decode_project_folder_name (encode_project_folder_name path) = Some decoded
    /\ decoded = String "/" (join "/" (pre ++ parent :: pieces))
    /\ ((List.length pieces <= 2)%nat ->
        project_name_of_path decoded = project_folder)
    /\ ((2 < List.length pieces)%nat ->
        project_name_of_path decoded = last pieces EmptyString).
Proof.
  intros Hplain Hpre Hparent Hpieces project_folder path.
  apply Forall_app in Hplain as [Hplain_pre Hplain_pieces].
  pose proof (common_parent_plain _ Hparent) as Hplain_parent.
  assert (Hno : forall l,
             Forall (fun seg => plain_segment seg = true) l ->
             Forall (fun seg => has_char "-" seg = false) l).
  { intros l H. eapply Forall_impl; [|exact H].
    intros seg Hs. now destruct (plain_segment_true _ Hs) as (_ & _ & _ & H4). }
  assert (Hdecoded : replace_char "-" "/" path
                     = String "/" (join "/" (pre ++ parent :: pieces))).
  { unfold path. cbn [replace_char]. f_equal.
    change (pre ++ [parent; project_folder])%list
      with (pre ++ [parent] ++ [project_folder])%list.
    rewrite app_assoc.
    rewrite join_app by (try discriminate; destruct pre; discriminate).
    rewrite !replace_char_app.
    rewrite (replace_char_absent "-" "/" (join "/" (pre ++ [parent]))).
    2:{ apply has_char_join; [reflexivity|].
        apply Hno, Forall_app. split; [assumption|].
        constructor; [assumption|constructor]. }
    change (join "/" [project_folder]) with (join "-" pieces).
    rewrite <- (join_split_replace "-" "/" (join "-" pieces)).
    rewrite split_on_join by (auto using Hno).
    simpl (replace_char "-" "/" "/").
    rewrite <- (join_app "/" (pre ++ [parent]) pieces);
      [|destruct pre; discriminate|assumption].
    now rewrite <- app_assoc. }
  exists (replace_char "-" "/" path).
  split; [apply decode_encode_replace, startswith_cons|].
  split; [exact Hdecoded|].
  rewrite Hdecoded. unfold project_name_of_path.
  rewrite remaining_after_parent_parts, segments_of_plain.
  2:{ destruct pre; discriminate. }
  2:{ apply Forall_app. split; [assumption|]. now constructor. }
  rewrite (remaining_after_parent_found _ _ _ Hpre Hparent Hpieces).
  split; intros Hlen.
  - destruct pieces as [|a [|b [|c r]]]; [contradiction| | |simpl in Hlen; lia];
      reflexivity.
  - destruct pieces as [|a [|b [|c r]]]; try (simpl in Hlen; lia).
    reflexivity.
Qed.

Lemma hyphenated_project_under_common_parent_witness :
  (exists decoded,
      decode_project_folder_name
        (encode_project_folder_name "/Users/helmi/code/paperless-ai")
      = Some decoded
      /\ project_name_of_path decoded = "paperless-ai")
  /\ (exists decoded,
         decode_project_folder_name
           (encode_project_folder_name "/Users/helmi/code/my-cool-app")
         = Some decoded
         /\ project_name_of_path decoded = "app").
Proof.
  split.
  - destruct (hyphenated_project_under_common_parent
                ["Users"; "helmi"] "code" ["paperless"; "ai"])
      as (decoded & Hd & _ & Hshort & _);
      [repeat constructor|repeat constructor|reflexivity|discriminate|].
    exists decoded. split; [exact Hd|]. apply Hshort. simpl. lia.
  - destruct (hyphenated_project_under_common_parent
                ["Users"; "helmi"] "code" ["my"; "cool"; "app"])
      as (decoded & Hd & _ & _ & Hlong);
      [repeat constructor|repeat constructor|reflexivity|discriminate|].
    exists decoded. split; [exact Hd|]. apply Hlong. simpl. lia.
Defined.

(** ** Pruning, more precisely *)

Lemma dict_set_absent (k : string) (v : json) (d : dict) :
  ~ In k (map fst d) -> Py.dict_set k v d = (d ++ [(k, v)])%list.
Proof.
  induction d as [|[k' v'] r IH]; simpl; intros H; [reflexivity|].
  destruct (String.eqb_spec k k') as [->|Hne]; [tauto|].
  rewrite IH by tauto. reflexivity.
Qed.

Lemma dict_set_keys (k : string) (v : json) (d : dict) :
  forall x, In x (map fst (Py.dict_set k v d)) <-> x = k \/ In x (map fst d).
Proof.
  induction d as [|[k' v'] r IH]; simpl; intros x.
  - intuition.
  - destruct (String.eqb_spec k k') as [->|Hne]; simpl.
    + intuition.
    + rewrite IH. intuition.
Qed.

Lemma dict_set_NoDup (k : string) (v : json) (d : dict) :
  NoDup (map fst d) -> NoDup (map fst (Py.dict_set k v d)).
Proof.
  induction d as [|[k' v'] r IH]; simpl; intros H.
  - repeat constructor. intros [].
  - inversion H as [|? ? Hk Hr]; subst.
    destruct (String.eqb_spec k k') as [->|Hne]; simpl.
    + now constructor.
    + constructor; [|auto]. rewrite dict_set_keys. intros [E|E]; congruence.
Qed.

Lemma clean_loop_NoDup (current_time expiry_seconds : Z) (items acc kept : dict) :
  clean_loop current_time expiry_seconds items acc = Ok kept ->
  NoDup (map fst acc) -> NoDup (map fst kept).
Proof.
  revert acc. induction items as [|[k d] rest IH]; simpl; intros acc Hrun Hnd.
  - now injection Hrun as <-.
  - destruct (entry_timestamp d) as [t|]; [|discriminate].
    apply (IH _ Hrun).
    destruct (current_time - t <? expiry_seconds)%Z;
      [now apply dict_set_NoDup|assumption].
Qed.

Lemma clean_loop_filter (current_time : Z) (items acc kept : dict) :
  clean_loop current_time (CACHE_EXPIRY_DAYS * 24 * 60 * 60) items acc = Ok kept ->
  NoDup (map fst items) ->
  (forall k, In k (map fst items) -> ~ In k (map fst acc)) ->
  kept = (acc ++ filter (fun kv => entry_fresh current_time (snd kv)) items)%list.
Proof.
  revert acc. induction items as [|[k d] rest IH];
    cbn [clean_loop filter]; intros acc Hrun Hnd Hdisj.
  - injection Hrun as <-. now rewrite app_nil_r.
  - unfold entry_fresh at 1. cbn [snd].
    destruct (entry_timestamp d) as [t|]; [|discriminate].
    inversion Hnd as [|? ? Hk Hrest]; subst.
    destruct (current_time - t <? CACHE_EXPIRY_DAYS * 24 * 60 * 60)%Z.
    + rewrite (IH _ Hrun Hrest).
      * rewrite dict_set_absent by (apply Hdisj; now left).
        now rewrite <- app_assoc.
      * intros k' Hin. rewrite dict_set_keys. intros [->|Hacc];
          [contradiction|]. apply (Hdisj k'); [now right|assumption].
    + apply (IH _ Hrun Hrest). intros k' Hin. apply Hdisj. now right.
Qed.

Lemma filter_keys_NoDup (f : string * json -> bool) (d : dict) :
  NoDup (map fst d) -> NoDup (map fst (filter f d)).
Proof.
  induction d as [|kv r IH]; simpl; intros H; [constructor|].
  inversion H as [|? ? Hk Hr]; subst.
  destruct (f kv); simpl; [|auto].
  constructor; [|auto]. intros Hin. apply Hk.
  apply in_map_iff in Hin as (x & Hx & Hin).
  apply filter_In in Hin as [Hin _]. apply in_map_iff. eauto.
Qed.

Lemma filter_idempotent {A} (f : A -> bool) (l : list A) :
  filter f (filter f l) = filter f l.
Proof.
  induction l as [|x r IH]; simpl; [reflexivity|].
  destruct (f x) eqn:E; simpl; rewrite ?E, IH; reflexivity.
Qed.

(** X4.  Pruning keeps exactly the entries that pass the age test, in the order
    of the loaded document, and pruning its own result again at the same
    clock reading changes nothing. *)
Theorem prune_keeps_fresh_in_order
        (w w' : World) (items kept : dict) :
  run live_cache w = (Ok (JObj kept), w') ->
  loaded_cache w = JObj items ->
  Py.dict_wf items ->
  kept = filter (fun kv => entry_fresh (clock w (ticks w)) (snd kv)) items
  /\ clean_loop (clock w (ticks w)) (CACHE_EXPIRY_DAYS * 24 * 60 * 60) kept []
     = Ok kept.
Proof.
  intros Hrun Hload Hwf. rewrite run_live_cache, Hload in Hrun.
  change (7 * 24 * 60 * 60)%Z with (CACHE_EXPIRY_DAYS * 24 * 60 * 60)%Z in Hrun.
  destruct (clean_loop _ _ items []) as [kept0|] eqn:Ec; [|discriminate].
  injection Hrun as -> _.
  pose proof (clean_loop_filter _ _ _ _ Ec Hwf (fun _ _ H => H)) as Hk.
  simpl in Hk. split; [exact Hk|].
  destruct (clean_loop_total (clock w (ticks w))
              (CACHE_EXPIRY_DAYS * 24 * 60 * 60) kept []) as [kept2 Hk2].
  { apply Forall_forall. intros [k d] Hin.
    destruct (Py.dict_get k kept) as [d'|] eqn:Hget.
    - clear Hget d'. subst kept. apply filter_In in Hin as [_ Hfresh].
      unfold entry_fresh in Hfresh. simpl in *.
      destruct (entry_timestamp d) as [t|]; [eauto|discriminate].
    - subst kept. apply filter_In in Hin as [_ Hfresh].
      unfold entry_fresh in Hfresh. simpl in *.
      destruct (entry_timestamp d) as [t|]; [eauto|discriminate]. }
  rewrite Hk2. f_equal.
  pose proof (clean_loop_filter _ _ _ _ Hk2) as Hf. simpl in Hf.
  rewrite Hf; [| |auto].
  - rewrite Hk at 1. rewrite filter_idempotent. now symmetry.
  - rewrite Hk. now apply filter_keys_NoDup.
Qed.

Lemma prune_keeps_fresh_in_order_witness :
  exists kept,
    fst (run live_cache demo_world) = Ok (JObj kept)
    /\ kept = filter (fun kv => entry_fresh 1700000000 (snd kv))
                     [("old-session",
                       JObj [("project_name", JStr "legacy");
                             ("timestamp", JNum 1000);
                             ("project_path", JStr "/Users/helmi/code/legacy");
                             ("claude_folder", JStr "-Users-helmi-code-legacy")]);
                      ("s1",
                       JObj [("project_name", JStr "zero");
                             ("timestamp", JNum 1699990000);
                             ("project_path", JStr "/Users/helmi/code/zero");
                             ("claude_folder", JStr "-Users-helmi-code-zero")])].
Proof.
  eexists. split; [reflexivity|].
  refine (proj1 (prune_keeps_fresh_in_order demo_world _ _ _
                   eq_refl eq_refl _)).
  unfold Py.dict_wf. simpl. repeat constructor; simpl; intuition discriminate.
Defined.

(** ** The resolver, call after call *)

Lemma run_auto_add_frame (project_name folder_name : string) (w : World) :
  exists w',
    run (auto_add_project_to_replacements project_name folder_name) w = (Ok tt, w')
    /\ cache_file w' = cache_file w
    /\ cache_writable w' = cache_writable w
    /\ ticks w' = ticks w
    /\ clock w' = clock w
    /\ glob_projects w' = glob_projects w
    /\ path_resolve w' = path_resolve w.
Proof.
  unfold run, auto_add_project_to_replacements, load_replacements,
    write_replacements.
  unfold bind, emit, try_except, lift, ret.
  world_simpl.
  destruct (replacements_file w) as [| |doc];
    match goal with
    | |- context [add_project ?r ?p ?f] =>
        destruct (add_project r p f) as [[updated|]|]
    end;
    world_simpl;
    try (destruct (replacements_writable w));
    eexists; (split; [reflexivity|]); repeat split; reflexivity.
Qed.

(** the recompute path when the session record is found and the cache can
    be written *)
Lemma run_resolve_found (cache : dict) (session_id : string)
      (cwd : option string) (w : World) (folder_name : string)
      (others : list string) (actual_project_path : string) :
  glob_projects w (session_id ++ ".jsonl") = Some (folder_name :: others) ->
  decode_project_folder_name folder_name = Some actual_project_path ->
  exists w',
    run (resolve_from_session_file (JObj cache) session_id cwd) w
    = (Ok (JStr (project_name_of_path actual_project_path)), w')
    /\ (cache_writable w = true ->
        cache_file w'
        = Parsed (JObj (Py.dict_set session_id
                          (cache_entry (project_name_of_path actual_project_path)
                                       (clock w (ticks w))
                                       actual_project_path folder_name)
                          cache)))
    /\ (cache_writable w = false -> cache_file w' = cache_file w)
    /\ ticks w' = S (ticks w)
    /\ clock w' = clock w
    /\ path_resolve w' = path_resolve w.
Proof.
  intros Hglob Hdec.
  unfold run, resolve_from_session_file, search_session_file, glob_session.
  unfold bind at 1. unfold try_except. unfold bind at 1. unfold bind at 1.
  unfold emit. world_simpl. rewrite Hglob, Hdec.
  set (w0 := set_trace _ w).
  set (pn := project_name_of_path actual_project_path).
  assert (Hval : forall k : M (option json),
             bind (match cwd_given cwd with
                   | Some c =>
                       bind (is_cwd_under_project c (JStr actual_project_path))
                            (fun _ => ret tt)
                   | None => ret tt
                   end) (fun _ => k) w0 = k w0).
  { intros k. destruct (cwd_given cwd); reflexivity. }
  rewrite Hval.
  destruct (run_auto_add_frame pn folder_name w0)
    as (w1 & Hrun & Hcf & Hcw & Hti & Hcl & _ & Hpr).
  unfold run in Hrun. unfold bind at 1. rewrite Hrun.
  unfold time_time, lift, save_project_cache, emit, ret. unfold bind.
  world_simpl. simpl Py.setitem. cbv iota beta.
  rewrite Hcw. subst w0. world_simpl.
  destruct (cache_writable w); world_simpl;
    eexists; (split; [reflexivity|]); world_simpl;
    rewrite ?Hti, ?Hcl, ?Hpr, ?Hcf; world_simpl;
    repeat split; try reflexivity; try discriminate.
Qed.

Lemma clean_loop_timestamps (current_time expiry_seconds : Z)
      (items acc kept : dict) :
  clean_loop current_time expiry_seconds items acc = Ok kept ->
  Forall (fun kv => exists t, entry_timestamp (snd kv) = Ok t) acc ->
  Forall (fun kv => exists t, entry_timestamp (snd kv) = Ok t) kept.
Proof.
  intros Hrun Hacc. apply Forall_forall. intros [k d] Hin.
  assert (Hnd : forall x, In x kept -> In x acc \/ In x items).
  { clear -Hrun. revert acc Hrun.
    induction items as [|[k d] rest IH]; simpl; intros acc Hrun x Hx.
    - injection Hrun as <-. now left.
    - destruct (entry_timestamp d) as [t|]; [|discriminate].
      destruct (IH _ Hrun x Hx) as [H|H]; [|now right; right].
      destruct (current_time - t <? expiry_seconds)%Z; [|now left].
      clear -H. induction acc as [|[k' v'] r IHa]; simpl in *.
      + destruct H as [<-|[]]. right. now left.
      + destruct (String.eqb k k') eqn:E.
        * apply String.eqb_eq in E. subst k'.
          destruct H as [<-|H]; [right; now left|left; now right].
        * destruct H as [<-|H]; [left; now left|].
          destruct (IHa H) as [H'|H']; [left; now right|now right]. }
  destruct (Hnd _ Hin) as [H|H].
  - rewrite Forall_forall in Hacc. exact (Hacc _ H).
  - clear -Hrun H. revert acc Hrun.
    induction items as [|[k' d'] rest IH]; simpl in *; [contradiction|].
    intros acc. destruct (entry_timestamp d') as [t|] eqn:Et; [|discriminate].
    destruct H as [E|H]; [injection E as -> ->; eauto|].
    intros Hrun. eapply IH; eauto.
Qed.

Lemma lookup_cached_oracle (cache : json) (session_id : string)
      (cwd : option string) (w w' : World) :
  path_resolve w' = path_resolve w ->
  fst (run (lookup_cached cache session_id cwd) w')
  = fst (run (lookup_cached cache session_id cwd) w).
Proof.
  intros Hpr.
  unfold run, lookup_cached, bind, lift, ret, is_cwd_under_project.
  destruct (Py.contains_str session_id cache) as [[|]|]; try reflexivity.
  destruct (Py.getitem cache session_id) as [entry|]; try reflexivity.
  destruct (Py.getitem entry "project_name"); try reflexivity.
  destruct (cwd_given cwd) as [c|]; try reflexivity.
  destruct (Py.contains_str "project_path" entry) as [[|]|]; try reflexivity.
  destruct (Py.getitem entry "project_path") as [pp|]; try reflexivity.
  rewrite (under_project_oracle w w' c pp Hpr).
  destruct (under_project w c pp); reflexivity.
Qed.

(** X5.  A name that was resolved from the session record and stored is served
    from the cache by the next call: when the cache file can be written,
    fewer than 7 days pass between the two calls and the second [cwd] is
    absent or under the decoded project path, the second call returns the
    same name without a lookup of the session record and without writing. *)
Theorem resolved_name_is_cached
        (w w0 : World) (session_id : string) (cwd cwd' : option string)
        (kept : dict) (folder_name : string) (others : list string)
        (actual_project_path : string) :
  run live_cache w = (Ok (JObj kept), w0) ->
  run (lookup_cached (JObj kept) session_id cwd) w0 = (Ok None, w0) ->
  glob_projects w (session_id ++ ".jsonl") = Some (folder_name :: others) ->
  decode_project_folder_name folder_name = Some actual_project_path ->
  cache_writable w = true ->
  (clock w (S (S (ticks w))) - clock w (S (ticks w))
   < CACHE_EXPIRY_DAYS * 24 * 60 * 60)%Z ->
  (cwd_given cwd' = None
   \/ exists c, cwd_given cwd' = Some c
                /\ under_project w c (JStr actual_project_path) = true) ->
  exists w1 w2,
    run (resolve_project_name session_id cwd) w
    = (Ok (JStr (project_name_of_path actual_project_path)), w1)
    /\ run (resolve_project_name session_id cwd') w1
       = (Ok (JStr (project_name_of_path actual_project_path)), w2)
    /\ trace w2 = trace w1
    /\ cache_file w2 = cache_file w1.
Proof.
  intros Hlive Hmiss Hglob Hdec Hwr Hage Hcwd.
  destruct (live_cache_world _ _ _ Hlive) as [-> _].
  set (w0 := set_ticks (S (ticks w)) w) in *.
  destruct (run_resolve_found kept session_id cwd w0 folder_name others
              actual_project_path Hglob Hdec)
    as (w1 & Hrun1 & Hfile & _ & Hti & Hcl & Hpr).
  specialize (Hfile Hwr).
  set (pn := project_name_of_path actual_project_path) in *.
  set (entry := cache_entry pn (clock w0 (ticks w0)) actual_project_path
                            folder_name) in *.
  exists w1.
  assert (Hfirst : run (resolve_project_name session_id cwd) w
                   = (Ok (JStr pn), w1)).
  { rewrite run_resolve_project_name, Hlive, Hmiss. exact Hrun1. }
  (* the second call *)
  assert (Hkept_ts : Forall (fun kv => exists t, entry_timestamp (snd kv) = Ok t)
                            kept).
  { rewrite run_live_cache in Hlive.
    destruct (loaded_cache w) as [| | | | |items]; try discriminate.
    destruct (clean_loop _ _ items []) as [k0|] eqn:Ec; [|discriminate].
    injection Hlive as <-.
    exact (clean_loop_timestamps _ _ _ _ _ Ec (Forall_nil _)). }
  assert (Hkept_nd : NoDup (map fst kept)).
  { rewrite run_live_cache in Hlive.
    destruct (loaded_cache w) as [| | | | |items]; try discriminate.
    destruct (clean_loop _ _ items []) as [k0|] eqn:Ec; [|discriminate].
    injection Hlive as <-.
    exact (clean_loop_NoDup _ _ _ _ _ Ec (NoDup_nil _)). }
  set (stored := Py.dict_set session_id entry kept) in *.
  assert (Hstored_ts : Forall (fun kv => exists t, entry_timestamp (snd kv) = Ok t)
                              stored).
  { apply Forall_forall. intros [k d] Hin.
    assert (Hin' : (k, d) = (session_id, entry) \/ In (k, d) kept).
    { clear -Hin. subst stored. induction kept as [|[k' v'] r IH]; simpl in *.
      - destruct Hin as [<-|[]]. now left.
      - destruct (String.eqb session_id k') eqn:E.
        + apply String.eqb_eq in E. subst k'.
          destruct Hin as [<-|H]; [now left|right; now right].
        + destruct Hin as [<-|H]; [right; now left|].
          destruct (IH H) as [H'|H']; [now left|right; now right]. }
    destruct Hin' as [E|Hk].
    - injection E as -> ->. simpl. eexists. reflexivity.
    - rewrite Forall_forall in Hkept_ts. exact (Hkept_ts _ Hk). }
  destruct (clean_loop_total (clock w1 (ticks w1)) (7 * 24 * 60 * 60) stored []
              Hstored_ts) as [kept2 Hkept2].
  assert (Hget2 : Py.dict_get session_id kept2 = Some entry).
  { destruct (clean_loop_complete _ _ _ _ _ Hkept2
                (dict_set_NoDup _ _ _ Hkept_nd) session_id) as [_ Hin].
    rewrite (Hin entry (clock w0 (ticks w0))
               (dict_get_set_same _ _ _) eq_refl eq_refl).
    rewrite Hti, Hcl. subst w0. world_simpl.
    apply Z.ltb_lt in Hage.
    change (CACHE_EXPIRY_DAYS * 24 * 60 * 60)%Z with (7 * 24 * 60 * 60)%Z in Hage.
    now rewrite Hage. }
  assert (Hlive2 : run live_cache w1
                   = (Ok (JObj kept2), set_ticks (S (ticks w1)) w1)).
  { rewrite run_live_cache. unfold loaded_cache. rewrite Hfile.
    now rewrite Hkept2. }
  exists (set_ticks (S (ticks w1)) w1).
  split; [exact Hfirst|].
  rewrite run_resolve_project_name, Hlive2.
  rewrite (lookup_cached_entry kept2 session_id cwd' entry (JStr pn) _ Hget2 eq_refl).
  assert (Hhit : match cwd_given cwd' with
                 | Some c =>
                     match Py.getitem entry "project_path" with
                     | Ok project_path =>
                         if under_project (set_ticks (S (ticks w1)) w1) c
                                          project_path
                         then Some (JStr pn) else None
                     | Raise _ => Some (JStr pn)
                     end
                 | None => Some (JStr pn)
                 end = Some (JStr pn)).
  { destruct Hcwd as [-> | (c & -> & Hu)]; [reflexivity|].
    assert (Hpp : Py.getitem entry "project_path"
                  = Ok (JStr actual_project_path)) by reflexivity.
    rewrite Hpp.
    rewrite (under_project_oracle w (set_ticks (S (ticks w1)) w1)).
    - now rewrite Hu.
    - world_simpl. rewrite Hpr. reflexivity. }
  rewrite Hhit. repeat split; reflexivity.
Qed.

Lemma resolved_name_is_cached_witness :
  exists w1 w2,
    run (resolve_project_name "s2" None) fresh_session_world
    = (Ok (JStr "paperless-ai"), w1)
    /\ run (resolve_project_name "s2" (Some "/Users/helmi/code/paperless/ai/src"))
           w1
       = (Ok (JStr "paperless-ai"), w2)
    /\ trace w2 = trace w1
    /\ cache_file w2 = cache_file w1.
Proof.
  refine (resolved_name_is_cached fresh_session_world _ "s2" None
            (Some "/Users/helmi/code/paperless/ai/src") _
            "-Users-helmi-code-paperless-ai" [] "/Users/helmi/code/paperless/ai"
            eq_refl eq_refl eq_refl eq_refl eq_refl _ _).
  - reflexivity.
  - right. exists "/Users/helmi/code/paperless/ai/src". split; reflexivity.
Defined.

(** X6.  Whether the cache file and the replacements document can be written
    makes no difference to what [resolve_project_name] returns: a failed
    save is swallowed and the name (or the exception of a malformed
    cache) is the same. *)
Theorem resolve_result_ignores_write_failures
        (w : World) (session_id : string) (cwd : option string)
        (cache_ok replacements_ok : bool) :
  fst (run (resolve_project_name session_id cwd)
           (with_writable cache_ok replacements_ok w))
  = fst (run (resolve_project_name session_id cwd) w).
Proof.
  rewrite !run_resolve_project_name, !run_live_cache.
  change (loaded_cache (with_writable cache_ok replacements_ok w))
    with (loaded_cache w).
  change (clock (with_writable cache_ok replacements_ok w)
                (ticks (with_writable cache_ok replacements_ok w)))
    with (clock w (ticks w)).
  destruct (loaded_cache w) as [| | | | |items]; try reflexivity.
  destruct (clean_loop _ _ items []) as [kept|]; [|reflexivity].
  set (v := set_ticks _ (with_writable cache_ok replacements_ok w)).
  set (u := set_ticks _ w).
  pose proof (lookup_cached_oracle (JObj kept) session_id cwd u v eq_refl) as Hl.
  destruct (run (lookup_cached (JObj kept) session_id cwd) v) as [r1 v1] eqn:E1.
  destruct (run (lookup_cached (JObj kept) session_id cwd) u) as [r2 u1] eqn:E2.
  pose proof (lookup_cached_pure _ _ _ _ _ _ E1) as ->.
  pose proof (lookup_cached_pure _ _ _ _ _ _ E2) as ->.
  simpl in Hl. subst r2.
  destruct r1 as [[n|]|e]; try reflexivity.
  destruct (run_resolve_from_session_file kept session_id cwd v)
    as (v' & evs & -> & _).
  destruct (run_resolve_from_session_file kept session_id cwd u)
    as (u' & evs' & -> & _).
  reflexivity.
Qed.

(** ** Auto-discovered projects *)

Lemma add_project_shape (r : json) (project_name folder_name : string) (r' : json) :
  add_project r project_name folder_name = Ok (Some r') ->
  exists p0 keys p1,
    Py.get r "project_names" (JObj []) = Ok p0
    /\ Py.get p0 "replacements" (JObj []) = Ok (JObj keys)
    /\ existsb (fun key => String.eqb (lower project_name) (lower (fst key))) keys
       = false
    /\ Py.get r' "project_names" (JObj []) = Ok p1
    /\ Py.get p1 "replacements" (JObj [])
       = Ok (JObj (Py.dict_set project_name
                     (JStr (replace_char "-" " " project_name)) keys)).
Proof.
  unfold add_project, rbind. intros H.
  destruct (Py.get r "project_names" (JObj [])) as [p0|] eqn:E0; [|discriminate].
  destruct (Py.get p0 "replacements" (JObj [])) as [pr|] eqn:E1; [|discriminate].
  destruct pr as [| | | | |keys]; try discriminate.
  destruct (existsb _ keys) eqn:Eex; [discriminate|].
  exists p0, keys.
  cbn [Py.setitem] in H.
  destruct r as [| | | | |rd]; try discriminate.
  cbn [Py.contains_str] in H.
  set (K := JObj (Py.dict_set project_name _ keys)) in *.
  assert (Hstep : forall rd1 : dict,
             match Py.getitem (JObj rd1) "project_names" with
             | Ok a0 =>
                 match Py.setitem a0 "replacements" K with
                 | Ok a1 =>
                     match Py.contains_str "comment" a1 with
                     | Ok a2 =>
                         match (if a2 then Ok a1
                                else Py.setitem a1 "comment"
                                       (JStr "Maps project names to human-friendly names. Keys are matched case-insensitively."))
                         with
                         | Ok a3 =>
                             match Py.setitem (JObj rd1) "project_names" a3 with
                             | Ok a4 =>
                                 match Py.contains_str "_auto_discovered" a4 with
                                 | Ok a5 =>
                                     match (if a5 then Ok a4
                                            else Py.setitem a4 "_auto_discovered"
                                                   (JObj [("comment",
                                                           JStr "Projects below were auto-discovered. You can customize their pronunciation by editing the values.")]))
                                     with
                                     | Ok a6 =>
                                         match Py.getitem a6 "_auto_discovered" with
                                         | Ok a7 =>
                                             match Py.contains_str "projects" a7 with
                                             | Ok a8 =>
                                                 match (if a8 then Ok a7
                                                        else Py.setitem a7 "projects" (JObj []))
                                                 with
                                                 | Ok a9 =>
                                                     match Py.getitem a9 "projects" with
                                                     | Ok a10 =>
                                                         match Py.setitem a10 project_name
                                                                 (JObj [("folder", JStr folder_name);
                                                                        ("display_name", JStr project_name);
                                                                        ("pronunciation",
                                                                         JStr (replace_char "-" " " project_name))])
                                                         with
                                                         | Ok a11 =>
                                                             match Py.setitem a9 "projects" a11 with
                                                             | Ok a12 =>
                                                                 match Py.setitem a6 "_auto_discovered" a12 with
                                                                 | Ok a13 => Ok (Some a13)
                                                                 | Raise e => Raise e
                                                                 end
                                                             | Raise e => Raise e
                                                             end
                                                         | Raise e => Raise e
                                                         end
                                                     | Raise e => Raise e
                                                     end
                                                 | Raise e => Raise e
                                                 end
                                             | Raise e => Raise e
                                             end
                                         | Raise e => Raise e
                                         end
                                     | Raise e => Raise e
                                     end
                                 | Raise e => Raise e
                                 end
                             | Raise e => Raise e
                             end
                         | Raise e => Raise e
                         end
                     | Raise e => Raise e
                     end
                 | Raise e => Raise e
                 end
             | Raise e => Raise e
             end = Ok (Some r') ->
             exists p1,
               Py.get r' "project_names" (JObj []) = Ok p1
               /\ Py.get p1 "replacements" (JObj []) = Ok K).
  { clear. intros rd1 H.
    destruct (Py.getitem (JObj rd1) "project_names") as [a0|]; [|discriminate].
    destruct a0 as [| | | | |d0]; try discriminate.
    cbn [Py.setitem Py.contains_str] in H.
    set (d1 := Py.dict_set "replacements" K d0) in *.
    assert (H1 : Py.dict_get "replacements" d1 = Some K)
      by apply dict_get_set_same.
    assert (Hd3 : exists d3,
               Py.dict_get "replacements" d3 = Some K
               /\ match Py.setitem (JObj rd1) "project_names" (JObj d3) with
                  | Ok a4 =>
                      match Py.contains_str "_auto_discovered" a4 with
                      | Ok a5 =>
                          match (if a5 then Ok a4
                                 else Py.setitem a4 "_auto_discovered"
                                        (JObj [("comment",
                                                JStr "Projects below were auto-discovered. You can customize their pronunciation by editing the values.")]))
                          with
                          | Ok a6 =>
                              match Py.getitem a6 "_auto_discovered" with
                              | Ok a7 =>
                                  match Py.contains_str "projects" a7 with
                                  | Ok a8 =>
                                      match (if a8 then Ok a7
                                             else Py.setitem a7 "projects" (JObj []))
                                      with
                                      | Ok a9 =>
                                          match Py.getitem a9 "projects" with
                                          | Ok a10 =>
                                              match Py.setitem a10 project_name
                                                      (JObj [("folder", JStr folder_name);
                                                             ("display_name", JStr project_name);
                                                             ("pronunciation",
                                                              JStr (replace_char "-" " " project_name))])
                                              with
                                              | Ok a11 =>
                                                  match Py.setitem a9 "projects" a11 with
                                                  | Ok a12 =>
                                                      match Py.setitem a6 "_auto_discovered" a12 with
                                                      | Ok a13 => Ok (Some a13)
                                                      | Raise e => Raise e
                                                      end
                                                  | Raise e => Raise e
                                                  end
                                              | Raise e => Raise e
                                              end
                                          | Raise e => Raise e
                                          end
                                      | Raise e => Raise e
                                      end
                                  | Raise e => Raise e
                                  end
                              | Raise e => Raise e
                              end
                          | Raise e => Raise e
                          end
                      | Raise e => Raise e
                      end
                  | Raise e => Raise e
                  end = Ok (Some r')).
    { destruct (Py.dict_has "comment" d1).
      - exists d1. split; assumption.
      - cbn [Py.setitem] in H. eexists. split; [|exact H].
        rewrite dict_get_set_other by discriminate. exact H1. }
    clear H. destruct Hd3 as (d3 & Hk & H).
    exists (JObj d3). split; [|cbn [Py.get]; now rewrite Hk].
    cbn [Py.setitem Py.contains_str] in H.
    set (rd4 := Py.dict_set "project_names" (JObj d3) rd1) in *.
    assert (H4 : Py.dict_get "project_names" rd4 = Some (JObj d3))
      by apply dict_get_set_same.
    assert (Hd6 : exists rd6,
               Py.dict_get "project_names" rd6 = Some (JObj d3)
               /\ exists a12, r' = JObj (Py.dict_set "_auto_discovered" a12 rd6)).
    { destruct (Py.dict_has "_auto_discovered" rd4).
      - exists rd4. split; [assumption|].
        destruct (Py.getitem (JObj rd4) "_auto_discovered") as [a7|]; [|discriminate].
        destruct (Py.contains_str "projects" a7) as [[|]|]; try discriminate.
        + destruct (Py.getitem a7 "projects") as [a10|]; [|discriminate].
          destruct (Py.setitem a10 project_name _) as [a11|]; [|discriminate].
          destruct (Py.setitem a7 "projects" a11) as [a12|]; [|discriminate].
          cbn [Py.setitem] in H. injection H as <-. eauto.
        + destruct (Py.setitem a7 "projects" (JObj [])) as [a9|]; [|discriminate].
          destruct (Py.getitem a9 "projects") as [a10|]; [|discriminate].
          destruct (Py.setitem a10 project_name _) as [a11|]; [|discriminate].
          destruct (Py.setitem a9 "projects" a11) as [a12|]; [|discriminate].
          cbn [Py.setitem] in H. injection H as <-. eauto.
      - cbn [Py.setitem] in H.
        match type of H with
        | context [Py.getitem (JObj ?d) "_auto_discovered"] =>
            exists d; split;
            [rewrite dict_get_set_other by discriminate; assumption|];
            destruct (Py.getitem (JObj d) "_auto_discovered") as [a7|];
            [|discriminate]
        end.
        destruct (Py.contains_str "projects" a7) as [[|]|]; try discriminate.
        + destruct (Py.getitem a7 "projects") as [a10|]; [|discriminate].
          destruct (Py.setitem a10 project_name _) as [a11|]; [|discriminate].
          destruct (Py.setitem a7 "projects" a11) as [a12|]; [|discriminate].
          cbn [Py.setitem] in H. injection H as <-. eauto.
        + destruct (Py.setitem a7 "projects" (JObj [])) as [a9|]; [|discriminate].
          destruct (Py.getitem a9 "projects") as [a10|]; [|discriminate].
          destruct (Py.setitem a10 project_name _) as [a11|]; [|discriminate].
          destruct (Py.setitem a9 "projects" a11) as [a12|]; [|discriminate].
          cbn [Py.setitem] in H. injection H as <-. eauto. }
    destruct Hd6 as (rd6 & H6 & a12 & ->).
    cbn [Py.get]. rewrite dict_get_set_other by discriminate. now rewrite H6. }
  destruct (Py.dict_has "project_names" rd).
  - destruct (Hstep rd H) as (p1 & Hp1 & Hk). exists p1. repeat split; assumption.
  - cbn [Py.setitem] in H.
    destruct (Hstep _ H) as (p1 & Hp1 & Hk). exists p1. repeat split; assumption.
Qed.

Lemma no_ci_match_absent (project_name : string) (keys : dict) :
  existsb (fun key => String.eqb (lower project_name) (lower (fst key))) keys
  = false ->
  ~ In project_name (map fst keys).
Proof.
  induction keys as [|[k v] rest IH]; simpl; intros H; [tauto|].
  apply orb_false_iff in H. destruct H as [Hk Hrest].
  intros [->|Hin]; [now rewrite String.eqb_refl in Hk|now apply IH].
Qed.

Lemma first_ci_match_app (k : string) (keys more : dict) :
  first_ci_match k (keys ++ more)%list
  = match first_ci_match k keys with
    | Some v => Some v
    | None => first_ci_match k more
    end.
Proof.
  induction keys as [|[k' v'] rest IH]; simpl; [reflexivity|].
  now destruct (String.eqb (lower k) (lower k')).
Qed.

Lemma first_ci_match_none (k : string) (keys : dict) :
  existsb (fun key => String.eqb (lower k) (lower (fst key))) keys = false ->
  first_ci_match k keys = None.
Proof.
  induction keys as [|[k' v'] rest IH]; simpl; [reflexivity|].
  intros H. apply orb_false_iff in H. destruct H as [-> Hrest]. now apply IH.
Qed.



(** X7.  [add_project] makes the name resolve to its spoken form and leaves
    the alias of every other name as it was. *)
Theorem add_project_registers_alias (r : json)
        (project_name folder_name : string) (r' : json) :
  add_project r project_name folder_name = Ok (Some r') ->
  apply_project_name_replacement project_name r'
  = Ok (JStr (replace_char "-" " " project_name))
  /\ forall other : string,
      String.eqb (lower other) (lower project_name) = false ->
      apply_project_name_replacement other r'
      = apply_project_name_replacement other r.
Proof.
  intros H. apply add_project_shape in H.
  destruct H as (p0 & keys & p1 & Hp0 & Hkeys & Hex & Hp1 & Hk).
  unfold apply_project_name_replacement.
  rewrite Hp0, Hkeys, Hp1, Hk.
  rewrite dict_set_absent by now apply no_ci_match_absent.
  split.
  - rewrite first_ci_match_app, first_ci_match_none by exact Hex.
    simpl. now rewrite String.eqb_refl.
  - intros other Hne. rewrite first_ci_match_app. simpl. rewrite Hne.
    now destruct (first_ci_match other keys).
Qed.

Lemma add_project_registers_alias_witness :
  add_project default_replacements "paperless-ai" "-Users-helmi-code-paperless-ai"
  <> Ok None
  /\ exists r',
      add_project default_replacements "paperless-ai" "-Users-helmi-code-paperless-ai"
      = Ok (Some r')
      /\ apply_project_name_replacement "paperless-ai" r'
         = Ok (JStr "paperless ai")
      /\ apply_project_name_replacement "agent-zero" r'
         = apply_project_name_replacement "agent-zero" default_replacements.
Proof.
  split; [discriminate|].
  eexists. split; [reflexivity|].
  assert (H := add_project_registers_alias default_replacements "paperless-ai"
                 "-Users-helmi-code-paperless-ai" _ eq_refl).
  destruct H as [H1 H2]. split; [exact H1|].
  apply H2. reflexivity.
Defined.



(** ** What the classifier can emit *)

Lemma speech_prefixed (d rest : string) :
  startswith (d ++ ", " ++ rest) (d ++ ", ") = true.
Proof.
  unfold startswith. rewrite <- string_app_assoc. apply prefix_app.
Qed.

Ltac speech_inv H :=
  simpl in H; injection H as <- <- <-;
  split; [simpl; tauto|apply speech_prefixed].

(** X9.  Every category that [handle_hook] sends is one of six of the
    seven that have a default text, [tool_blocked] is never sent; a spoken text, when
    there is one, begins with the project name and a comma, and only the
    [compaction] and [error] categories come without one. *)
Theorem classify_category_and_speech
        (d : string) (hook_data : dict) (c : classified)
        (event_type : string) (message : json) (custom_tts : option string) :
  classify d hook_data = Ok c ->
  intent c = Some (event_type, message, custom_tts) ->
  In event_type ["tool_activity"; "error"; "execution_complete";
                 "subagent_done"; "compaction"; "input_needed"]
  /\ match custom_tts with
     | Some t => startswith t (d ++ ", ") = true
     | None => event_type = "compaction" \/ event_type = "error"
     end.
Proof.
  unfold classify. intros Hc Hi.
  destruct (Py.eq_str (hook_type_of hook_data) "PreToolUse").
  { destruct (Py.eq_str (tool_name_of hook_data) "Bash").
    - destruct (Py.get (parameters_of hook_data) "command" (JStr EmptyString))
        as [[| | |command| |]|]; try discriminate.
      injection Hc as <-. unfold classify_bash in Hi.
      destruct (existsb _ safe_prefixes); [discriminate|].
      destruct (existsb _ dangerous_prefixes); [|discriminate].
      destruct (given (command_target (split_ws command))); speech_inv Hi.
    - destruct (existsb _ _).
      + destruct (Py.get (parameters_of hook_data) "file_path" (JStr EmptyString))
          as [file_path|]; [|discriminate].
        unfold classify_edit in Hc.
        destruct (any_in _ file_path) as [[|]|]; try discriminate.
        * destruct file_path as [| | |fp| |]; try discriminate.
          destruct (Py.eq_str (tool_name_of hook_data) "Write");
            [|destruct (Py.eq_str (tool_name_of hook_data) "MultiEdit")];
            injection Hc as <-; speech_inv Hi.
        * injection Hc as <-. discriminate.
      + injection Hc as <-. discriminate. }
  destruct (Py.eq_str (hook_type_of hook_data) "PostToolUse").
  { injection Hc as <-. unfold classify_post in Hi.
    destruct (hook_get2 hook_data "response" "tool_response" (JObj []));
      try discriminate.
    destruct (_ || _); [|discriminate].
    speech_inv Hi. }
  destruct (Py.eq_str (hook_type_of hook_data) "Stop").
  { injection Hc as <-. speech_inv Hi. }
  destruct (Py.eq_str (hook_type_of hook_data) "SubagentStop").
  { injection Hc as <-. speech_inv Hi. }
  destruct (Py.eq_str (hook_type_of hook_data) "PreCompact").
  { injection Hc as <-. simpl in Hi. injection Hi as <- <- <-.
    split; [simpl; tauto|now left]. }
  destruct (Py.eq_str (hook_type_of hook_data) "Notification");
    [|injection Hc as <-; discriminate].
  unfold classify_notification in Hc.
  destruct (hook_get hook_data "notification_type" (JStr EmptyString))
    as [| | |nt| |]; try discriminate.
  destruct (contains "error" (lower nt)).
  - injection Hc as <-. simpl in Hi.
    destruct (Py.truthy _); [|discriminate].
    injection Hi as <- <- <-. split; [simpl; tauto|now right].
  - destruct (Py.contains_str "permission to use" _) as [[|]|]; try discriminate.
    + destruct (hook_get hook_data "message" (JStr EmptyString))
        as [| | |rm| |]; try discriminate.
      destruct (search_permission_tool rm); injection Hc as <-; speech_inv Hi.
    + injection Hc as <-. speech_inv Hi.
Qed.

Lemma classify_category_and_speech_witness :
  In "tool_activity" ["tool_activity"; "error"; "execution_complete";
                      "subagent_done"; "compaction"; "input_needed"]
  /\ startswith "zero, removing important.txt" ("zero" ++ ", ") = true.
Proof.
  exact (classify_category_and_speech "zero" (bash_hook "rm important.txt") _
           "tool_activity" (JStr "[zero] Running rm on important.txt")
           (Some "zero, removing important.txt") eq_refl eq_refl).
Defined.

(** ** What a hook can do to the world *)

Lemma run_dispatch (h : NotificationHandler) (d : string) (c : classified)
      (w : World) :
  run (dispatch h d c) w
  = match intent c with
    | None => (Ok tt, w)
    | Some (event_type, message, custom_tts) =>
        let continue clean_message :=
          run (notify d clean_message ;;;
               sound_file <- get_notification_sound h event_type
                               (match custom_tts with
                                | Some t => t
                                | None => EmptyString
                                end) ;;
               match sound_file with
               | Some f => play_sound_file f
               | None => ret tt
               end) w in
        match Py.contains_str "] " message with
        | Raise e => (Raise e, w)
        | Ok true =>
            match message with
            | JStr s => continue (JStr (split1_last "] " s))
            | _ => (Raise AttributeError, w)
            end
        | Ok false => continue message
        end
    end.
Proof.
  unfold dispatch, intent.
  destruct c as [|[event_type|] [message|] custom_tts]; try reflexivity.
  destruct (negb (String.eqb event_type EmptyString) && Py.truthy message);
    [|reflexivity].
  unfold run. unfold bind at 1. unfold lift.
  destruct (Py.contains_str "] " message) as [[|]|e]; [|reflexivity|reflexivity].
  destruct message; reflexivity.
Qed.

(** the notification, then at most one synthesis, then at most one
    playback *)
Lemma notify_then_sound_effects (h : NotificationHandler) (d : string)
      (message : json) (event_type custom_text : string) (w : World) :
  let out :=
    run (notify d message ;;;
         sound_file <- get_notification_sound h event_type custom_text ;;
         match sound_file with
         | Some f => play_sound_file f
         | None => ret tt
         end) w in
  cache_file (snd out) = cache_file w
  /\ replacements_file (snd out) = replacements_file w
  /\ ticks (snd out) = ticks w
  /\ (synth_calls (snd out) <= synth_calls w + 1)%nat
  /\ exists later,
      trace (snd out) = (later ++ EvNotify d message :: trace w)%list
      /\ (later = []
          \/ (exists f, later = [EvPlay f] /\ str_in f (sounds w) = true)
          \/ (exists t f, later = [EvGenerate t f])
          \/ (exists t f, later = [EvPlay f; EvGenerate t f])).
Proof.
  cbv zeta. rewrite run_notify_then_sound, run_get_notification_sound.
  world_simpl. cbv zeta.
  destruct (USE_TTS h); cbn [negb]; cbv iota.
  2:{ world_simpl. repeat (split; [reflexivity || lia|]).
      exists []. split; [reflexivity|now left]. }
  destruct (tts_provider h) as [p|].
  2:{ world_simpl. repeat (split; [reflexivity || lia|]).
      exists []. split; [reflexivity|now left]. }
  set (f := sound_file_name h p event_type custom_text).
  destruct (str_in f (sounds w)) eqn:Hf.
  { world_simpl. rewrite Hf. world_simpl.
    repeat (split; [reflexivity || lia|]).
    exists [EvPlay f]. split; [reflexivity|]. right; left. now exists f. }
  destruct (synth w (synth_calls w)) as [|pydub_missing|pydub_missing].
  { world_simpl. repeat (split; [reflexivity || lia|]).
    eexists [EvGenerate _ f]. split; [reflexivity|]. right; right; left. eauto. }
  2:{ world_simpl. repeat (split; [reflexivity || lia|]).
      eexists [EvGenerate _ f]. split; [reflexivity|]. right; right; left. eauto. }
  world_simpl.
  match goal with
  | |- context [if str_in f ?l then _ else _] => destruct (str_in f l)
  end; world_simpl; repeat (split; [reflexivity || lia|]).
  - eexists [EvPlay f; EvGenerate _ f]. split; [reflexivity|].
    right; right; right. eauto.
  - eexists [EvGenerate _ f]. split; [reflexivity|]. right; right; left. eauto.
Qed.

(** X10.  [handle_hook], from the classification on, leaves the project
    cache, the replacements file and the clock alone and calls the
    synthesis backend at most once; it either leaves the world as it was
    or sends one notification titled with the project name, followed by
    at most one synthesis and at most one playback, in that order. *)
Theorem handle_hook_effects (h : NotificationHandler) (d : string)
        (hook_data : dict) (w : World) :
  let out := run (handle_hook h d hook_data) w in
  cache_file (snd out) = cache_file w
  /\ replacements_file (snd out) = replacements_file w
  /\ ticks (snd out) = ticks w
  /\ (synth_calls (snd out) <= synth_calls w + 1)%nat
  /\ (snd out = w
      \/ exists message later,
          trace (snd out) = (later ++ EvNotify d message :: trace w)%list
          /\ (later = []
              \/ (exists f, later = [EvPlay f] /\ str_in f (sounds w) = true)
              \/ (exists t f, later = [EvGenerate t f])
              \/ (exists t f, later = [EvPlay f; EvGenerate t f]))).
Proof.
  cbv zeta.
  assert (Hquiet : forall (r : result unit),
             cache_file (snd (r, w)) = cache_file w
             /\ replacements_file (snd (r, w)) = replacements_file w
             /\ ticks (snd (r, w)) = ticks w
             /\ (synth_calls (snd (r, w)) <= synth_calls w + 1)%nat
             /\ (snd (r, w) = w
                 \/ exists message later,
                     trace (snd (r, w))
                     = (later ++ EvNotify d message :: trace w)%list
                     /\ (later = []
                         \/ (exists f, later = [EvPlay f]
                                       /\ str_in f (sounds w) = true)
                         \/ (exists t f, later = [EvGenerate t f])
                         \/ (exists t f, later = [EvPlay f; EvGenerate t f])))).
  { intros r. cbn [fst snd]. repeat (split; [reflexivity || lia|]). now left. }
  assert (Hloud : forall message event_type custom_text,
             let out :=
               run (notify d message ;;;
                    sound_file <- get_notification_sound h event_type custom_text ;;
                    match sound_file with
                    | Some f => play_sound_file f
                    | None => ret tt
                    end) w in
             cache_file (snd out) = cache_file w
             /\ replacements_file (snd out) = replacements_file w
             /\ ticks (snd out) = ticks w
             /\ (synth_calls (snd out) <= synth_calls w + 1)%nat
             /\ (snd out = w
                 \/ exists message later,
                     trace (snd out)
                     = (later ++ EvNotify d message :: trace w)%list
                     /\ (later = []
                         \/ (exists f, later = [EvPlay f]
                                       /\ str_in f (sounds w) = true)
                         \/ (exists t f, later = [EvGenerate t f])
                         \/ (exists t f, later = [EvPlay f; EvGenerate t f])))).
  { intros message event_type custom_text.
    destruct (notify_then_sound_effects h d message event_type custom_text w)
      as (Hc & Hr & Ht & Hs & later & Htrace & Hshape).
    cbv zeta. repeat (split; [assumption|]).
    right. now exists message, later. }
  assert (Hrun : run (handle_hook h d hook_data) w
                 = match classify d hook_data with
                   | Ok c => run (dispatch h d c) w
                   | Raise e => (Raise e, w)
                   end) by reflexivity.
  rewrite Hrun. clear Hrun.
  destruct (classify d hook_data) as [c|e]; [|apply Hquiet].
  rewrite run_dispatch.
  destruct (intent c) as [[[event_type message] custom_tts]|]; [|apply Hquiet].
  cbv zeta.
  destruct (Py.contains_str "] " message) as [[|]|e]; [| |apply Hquiet].
  - destruct message; try apply Hquiet. apply Hloud.
  - apply Hloud.
Qed.

(** ** The message that is shown *)

Lemma after_first_bracket (a b : string) :
  contains "] " a = false ->
  after_first "] " (a ++ "] " ++ b) = Some b.
Proof.
  induction a as [|c t IH]; intros Ha.
  - assert (H : startswith ("] " ++ b) "] " = true) by apply prefix_app.
    cbn [append] in *. cbn [after_first]. rewrite H. reflexivity.
  - cbn [contains] in Ha. apply orb_false_iff in Ha. destruct Ha as [Hhere Ht].
    cbn [append after_first].
    match goal with
    | |- (if ?test then _ else _) = _ => assert (Hno : test = false)
    end.
    { unfold startswith in *. cbn [String.prefix] in *.
      destruct (ascii_dec "]" c); [|reflexivity].
      destruct t as [|c' t']; cbn [append String.prefix] in *.
      - destruct (ascii_dec " " "]"); [discriminate|reflexivity].
      - destruct (ascii_dec " " c'); [|reflexivity].
        now rewrite prefix_empty in Hhere. }
    rewrite Hno. now apply IH.
Qed.

Lemma startswith_app (s p : string) :
  startswith s p = true -> exists rest, s = p ++ rest.
Proof.
  unfold startswith. revert s. induction p as [|c t IH]; intros s H.
  - now exists s.
  - destruct s as [|c' s']; [discriminate|]. cbn [String.prefix] in H.
    destruct (ascii_dec c c') as [<-|]; [|discriminate].
    destruct (IH _ H) as [rest ->]. now exists rest.
Qed.

(** X11.  For a project name without a closing bracket followed by a
    space, a display
    message that begins with the bracketed project name is shown without
    that prefix, under the project name as title. *)
Theorem handle_hook_shows_message_without_prefix
        (h : NotificationHandler) (d : string) (hook_data : dict)
        (c : classified) (event_type : string) (message : json)
        (custom_tts : option string) (w : World) :
  contains "] " d = false ->
  classify d hook_data = Ok c ->
  intent c = Some (event_type, message, custom_tts) ->
  prefixed d message = true ->
  exists rest later,
    message = JStr ("[" ++ d ++ "] " ++ rest)
    /\ trace (snd (run (handle_hook h d hook_data) w))
       = (later ++ EvNotify d (JStr rest) :: trace w)%list.
Proof.
  intros Hd Hc Hi Hp.
  destruct message as [| | |s| |]; try discriminate.
  cbn [prefixed] in Hp. apply startswith_app in Hp. destruct Hp as [rest ->].
  assert (Hs : ("[" ++ d ++ "] ") ++ rest = ("[" ++ d) ++ "] " ++ rest)
    by now rewrite !string_app_assoc.
  assert (Hfirst : after_first "] " (("[" ++ d) ++ "] " ++ rest) = Some rest).
  { apply after_first_bracket. cbn [append contains]. now rewrite Hd. }
  assert (Hin : contains "] " (("[" ++ d) ++ "] " ++ rest) = true).
  { apply contains_app_l.
    assert (H : String.prefix "] " ("] " ++ rest) = true) by apply prefix_app.
    cbn [append] in *. cbn [contains]. now rewrite H. }
  assert (Hrun : run (handle_hook h d hook_data) w
                 = match classify d hook_data with
                   | Ok c => run (dispatch h d c) w
                   | Raise e => (Raise e, w)
                   end) by reflexivity.
  rewrite Hrun, Hc, run_dispatch, Hi. cbv zeta.
  rewrite Hs. cbn [Py.contains_str]. rewrite Hin.
  unfold split1_last. rewrite Hfirst.
  destruct (notify_then_sound_effects h d (JStr rest) event_type
              (match custom_tts with Some t => t | None => EmptyString end) w)
    as (_ & _ & _ & _ & later & Htrace & _).
  exists rest, later. split; [reflexivity|]. assumption.
Qed.

Lemma handle_hook_shows_message_without_prefix_witness :
  exists rest later,
    JStr "[zero] Running rm on important.txt" = JStr ("[" ++ "zero" ++ "] " ++ rest)
    /\ trace (snd (run (handle_hook demo_handler "zero"
                          (bash_hook "rm important.txt")) demo_world))
       = (later ++ EvNotify "zero" (JStr rest) :: trace demo_world)%list.
Proof.
  exact (handle_hook_shows_message_without_prefix demo_handler "zero"
           (bash_hook "rm important.txt") _ "tool_activity"
           (JStr "[zero] Running rm on important.txt")
           (Some "zero, removing important.txt") demo_world
           eq_refl eq_refl eq_refl eq_refl).
Defined.

(** ** Sound files *)

Lemma length_app (x y : string) :
  String.length (x ++ y) = (String.length x + String.length y)%nat.
Proof. induction x as [|c t IH]; simpl; [reflexivity|now rewrite IH]. Qed.

Lemma app_inv_head (x y z : string) : x ++ y = x ++ z -> y = z.
Proof.
  induction x as [|c t IH]; simpl; intros H; [exact H|].
  injection H as H. now apply IH.
Qed.


Lemma take_app_exact (x y : string) : take (String.length x) (x ++ y) = x.
Proof. induction x as [|c t IH]; simpl; [now destruct y|now rewrite IH]. Qed.

Lemma from_last_dot_mp3 (x : string) :
  from_last_dot (x ++ ".mp3") = Some ".mp3".
Proof.
  induction x as [|c t IH]; [reflexivity|].
  cbn [append from_last_dot]. now rewrite IH.
Qed.

(** [Path.with_suffix] replaces the extension of a named file *)
Lemma with_suffix_mp3 (c : ascii) (x new_suffix : string) :
  with_suffix (String c x ++ ".mp3") new_suffix = String c x ++ new_suffix.
Proof.
  assert (Hs : suffix (String c x ++ ".mp3") = ".mp3").
  { unfold suffix. cbn [append]. now rewrite from_last_dot_mp3. }
  unfold with_suffix. rewrite Hs, length_app.
  replace (String.length (String c x) + String.length ".mp3"
           - String.length ".mp3")%nat
    with (String.length (String c x)) by lia.
  now rewrite take_app_exact.
Qed.

Lemma sound_file_name_stem (h : NotificationHandler) (p : KokoroTTSProvider)
      (event_type custom_text : string) :
  exists c x,
    TTS_PROVIDER h ++ "_" ++ event_type ++ "_"
      ++ get_cache_key (text_to_speak event_type custom_text)
    = String c x
    /\ sound_file_name h p event_type custom_text
       = String c x ++ get_file_extension p.
Proof.
  unfold sound_file_name.
  set (key := get_cache_key (text_to_speak event_type custom_text)).
  assert (Hassoc : TTS_PROVIDER h ++ "_" ++ event_type ++ "_" ++ key
                     ++ get_file_extension p
                   = (TTS_PROVIDER h ++ "_" ++ event_type ++ "_" ++ key)
                       ++ get_file_extension p).
  { rewrite !string_app_assoc. reflexivity. }
  rewrite Hassoc.
  destruct (TTS_PROVIDER h) as [|c t]; cbn [append]; eauto.
Qed.

(** X12.  With the [mp3] format and [pydub] missing, [generate] stores the
    audio under the [.wav] name while [get_notification_sound] returns
    the [.mp3] name: that file does not exist, so [play_sound_file] plays
    nothing and the next call finds no cached file either. *)
Theorem mp3_without_pydub_is_never_played
        (h : NotificationHandler) (p : KokoroTTSProvider)
        (event_type custom_text : string) (w : World) :
  USE_TTS h = true ->
  tts_provider h = Some p ->
  format p = "mp3" ->
  synth w (synth_calls w) = SynthDone true ->
  let stem := TTS_PROVIDER h ++ "_" ++ event_type ++ "_"
                ++ get_cache_key (text_to_speak event_type custom_text) in
  str_in (stem ++ ".mp3") (sounds w) = false ->
  exists w1,
    run (get_notification_sound h event_type custom_text) w
    = (Ok (Some (stem ++ ".mp3")), w1)
    /\ sounds w1 = (stem ++ ".wav") :: sounds w
    /\ str_in (stem ++ ".mp3") (sounds w1) = false
    /\ run (play_sound_file (stem ++ ".mp3")) w1 = (Ok tt, w1).
Proof.
  intros Huse Hp Hfmt Hsynth stem Hmiss.
  destruct (sound_file_name_stem h p event_type custom_text)
    as (c & x & Hstem & Hname).
  fold stem in Hstem.
  assert (Hext : get_file_extension p = ".mp3")
    by (unfold get_file_extension; now rewrite Hfmt).
  rewrite Hext, <- Hstem in Hname.
  rewrite run_get_notification_sound, Huse, Hp. cbn [negb]. cbv iota zeta.
  rewrite Hname, Hmiss, Hsynth, Hfmt.
  change (String.eqb "mp3" "mp3") with true. cbn [andb].
  rewrite Hstem, with_suffix_mp3, <- Hstem.
  assert (Hstill : str_in (stem ++ ".mp3") ((stem ++ ".wav") :: sounds w) = false).
  { unfold str_in in *. cbn [existsb]. rewrite Hmiss, orb_false_r.
    apply String.eqb_neq. intros E. apply app_inv_head in E. discriminate. }
  eexists. split; [reflexivity|]. world_simpl.
  split; [reflexivity|]. split; [exact Hstill|].
  unfold run, play_sound_file, file_exists, bind. world_simpl.
  now rewrite Hstill.
Qed.

Lemma mp3_without_pydub_is_never_played_witness :
  let w := mkWorld Missing true Missing true (fun _ => 1700000000%Z) 0
                   (fun _ => Some []) (fun p => Some (PurePath.parts p))
                   [] (fun _ => SynthDone true) 0 [] in
  let stem := TTS_PROVIDER demo_handler ++ "_" ++ "compaction" ++ "_"
                ++ get_cache_key (text_to_speak "compaction" EmptyString) in
  exists w1,
    run (get_notification_sound demo_handler "compaction" EmptyString) w
    = (Ok (Some (stem ++ ".mp3")), w1)
    /\ sounds w1 = (stem ++ ".wav") :: sounds w
    /\ str_in (stem ++ ".mp3") (sounds w1) = false
    /\ run (play_sound_file (stem ++ ".mp3")) w1 = (Ok tt, w1).
Proof.
  intros w.
  apply (mp3_without_pydub_is_never_played demo_handler
           (mkKokoro "af_sarah" "mp3" "128k") "compaction" EmptyString w);
    reflexivity.
Defined.



(** ** Events without a session *)

Lemma part_after_code (pre : list string) (project : string)
      (rest : list string) :
  ~ In "code" pre ->
  let l := (pre ++ "code" :: project :: rest)%list in
  str_in "code" l = true
  /\ index_of "code" l = List.length pre
  /\ nth (List.length pre + 1) l EmptyString = project
  /\ (List.length pre + 1 <? List.length l)%nat = true.
Proof.
  intros Hpre l. subst l. repeat split.
  - unfold str_in. apply existsb_exists. exists "code".
    split; [apply in_or_app; right; now left|reflexivity].
  - induction pre as [|x r IH]; [reflexivity|].
    cbn [app index_of List.length].
    destruct (String.eqb_spec x "code") as [->|_]; [exfalso; apply Hpre; now left|].
    f_equal. apply IH. intros Hin. apply Hpre. now right.
  - clear Hpre. induction pre as [|x r IH]; [reflexivity|exact IH].
  - apply Nat.ltb_lt. rewrite List.length_app. simpl. lia.
Qed.

Lemma root_of_plain (c : ascii) (s : string) :
  c <> "/"%char -> PurePath.root (String "/" (String c s)) = ["/"].
Proof.
  intros Hc.
  destruct c as [[] [] [] [] [] [] [] []]; try reflexivity.
  now contradiction Hc.
Qed.

Lemma parts_of_plain (l : list string) :
  l <> [] ->
  Forall (fun seg => plain_segment seg = true) l ->
  PurePath.parts (String "/" (join "/" l)) = "/" :: l.
Proof.
  intros Hne Hall. unfold PurePath.parts.
  rewrite segments_of_plain by assumption.
  destruct l as [|x r]; [contradiction|].
  inversion Hall as [|? ? Hx _]; subst.
  destruct (plain_segment_true _ Hx) as (Hx1 & _ & Hx3 & _).
  destruct x as [|c x']; [contradiction|].
  assert (Hc : c <> "/"%char).
  { intros ->. simpl in Hx3. discriminate. }
  assert (Hjoin : exists s, join "/" (String c x' :: r) = String c s).
  { unfold join. destruct r; simpl; eauto. }
  destruct Hjoin as [s ->]. now rewrite root_of_plain.
Qed.

(** X14.  Without a session, the project of an event is the component
    right after the first [code] component of the working directory,
    whatever follows it. *)
Theorem project_name_from_cwd_after_code
        (cwd : string) (pre : list string) (project : string)
        (rest : list string) :
  PurePath.parts cwd = (pre ++ "code" :: project :: rest)%list ->
  ~ In "code" pre ->
  project_name_from_cwd cwd = project.
Proof.
  intros Hparts Hpre. unfold project_name_from_cwd. rewrite Hparts.
  destruct (part_after_code pre project rest Hpre) as (Hin & Hidx & Hnth & Hlt).
  cbv zeta in *. now rewrite Hin, Hidx, Hlt, Hnth.
Qed.

Lemma project_name_from_cwd_after_code_witness :
  project_name_from_cwd "/Users/helmi/code/zero/src/lib" = "zero".
Proof.
  apply (project_name_from_cwd_after_code _ ["/"; "Users"; "helmi"] "zero"
           ["src"; "lib"]).
  - reflexivity.
  - simpl. intros [H|[H|[H|[]]]]; discriminate.
Defined.

(** X15.  Take a project directly under a [code] directory, where no
    directory above [code] is a common parent and no component of the
    project path or of the working directory is empty, [.] or contains a
    hyphen.  Then the project folder name decodes to the project path, and
    the name taken from the working directory of a session-less event,
    anywhere inside the project, is the name that [resolve_project_name]
    takes from the decoded path: the project directory's own name. *)
Theorem project_names_agree_under_code
        (pre : list string) (project : string) (sub : list string) :
  Forall (fun seg => plain_segment seg = true) (pre ++ project :: sub) ->
  Forall (fun seg => str_in seg common_parents = false) pre ->
  let actual_project_path := String "/" (join "/" (pre ++ ["code"; project])) in
  let cwd := String "/" (join "/" (pre ++ "code" :: project :: sub)) in
  decode_project_folder_name (encode_project_folder_name actual_project_path)
  = Some actual_project_path
  /\ project_name_from_cwd cwd = project
  /\ project_name_of_path actual_project_path = project.
Proof.
  intros Hplain Hpre actual_project_path cwd.
  apply Forall_app in Hplain as [Hplain_pre Hplain_rest].
  inversion Hplain_rest as [|? ? Hproject Hsub]; subst.
  assert (Hcode : plain_segment "code" = true) by reflexivity.
  assert (Hpath : Forall (fun seg => plain_segment seg = true)
                         (pre ++ ["code"; project])).
  { apply Forall_app. split; [assumption|]. repeat constructor; assumption. }
  assert (Hnot : ~ In "code" ("/" :: pre)).
  { intros [H|Hin]; [discriminate|].
    rewrite Forall_forall in Hpre. specialize (Hpre _ Hin). discriminate. }
  split; [|split].
  - unfold actual_project_path.
    rewrite decode_encode_replace by apply startswith_cons.
    f_equal. apply replace_char_absent.
    cbn [has_char]. change (Ascii.eqb "/" "-") with false. cbn [orb].
    apply has_char_join; [reflexivity|].
    eapply Forall_impl; [|exact Hpath].
    intros seg Hs. now destruct (plain_segment_true _ Hs) as (_ & _ & _ & H4).
  - unfold project_name_from_cwd, cwd.
    rewrite parts_of_plain.
    2:{ destruct pre; discriminate. }
    2:{ apply Forall_app. split; [assumption|]. repeat constructor; assumption. }
    destruct (part_after_code ("/" :: pre) project sub Hnot)
      as (Hin & Hidx & Hnth & Hlt).
    cbv zeta in *. cbn [app] in *. now rewrite Hin, Hidx, Hlt, Hnth.
  - unfold project_name_of_path, actual_project_path.
    rewrite remaining_after_parent_parts, segments_of_plain.
    2:{ destruct pre; discriminate. }
    2:{ exact Hpath. }
    rewrite (remaining_after_parent_found pre "code" [project] Hpre eq_refl)
      by discriminate.
    reflexivity.
Qed.

Lemma project_names_agree_under_code_witness :
  decode_project_folder_name (encode_project_folder_name "/Users/helmi/code/zero")
  = Some "/Users/helmi/code/zero"
  /\ project_name_from_cwd "/Users/helmi/code/zero/src/lib" = "zero"
  /\ project_name_of_path "/Users/helmi/code/zero" = "zero".
Proof.
  apply (project_names_agree_under_code ["Users"; "helmi"] "zero" ["src"; "lib"]).
  - repeat constructor.
  - repeat constructor.
Defined.

(** ** Permission requests *)

Lemma take_word_split (s : string) :
  all_word (take_word s) = true /\ exists rest, s = take_word s ++ rest.
Proof.
  induction s as [|c t [IHw [rest IHr]]]; cbn [take_word].
  - split; [reflexivity|now exists EmptyString].
  - destruct (is_word_char c) eqn:Ec; cbn [all_word append].
    + rewrite Ec, IHw. split; [reflexivity|].
      exists rest. now rewrite <- IHr.
    + split; [reflexivity|now eexists].
Qed.

Lemma prefix_contains (x s : string) :
  String.prefix x s = true -> contains x s = true.
Proof. destruct s; cbn [contains]; intros ->; reflexivity. Qed.

Lemma contains_cons (x : string) (c : ascii) (s : string) :
  contains x s = true -> contains x (String c s) = true.
Proof. intros H. cbn [contains]. rewrite H. apply orb_true_r. Qed.

(** X16.  The tool that a permission request names is a non-empty run of
    word characters that follows [permission to use ] in the message. *)
Theorem search_permission_tool_sound (s tool : string) :
  search_permission_tool s = Some tool ->
  tool <> EmptyString
  /\ all_word tool = true
  /\ contains ("permission to use " ++ tool) s = true.
Proof.
  induction s as [|c t IH].
  - cbn. discriminate.
  - assert (Hstep : search_permission_tool (String c t)
                    = match (if startswith (String c t) "permission to use "
                             then match take_word (drop 18 (String c t)) with
                                  | EmptyString => None
                                  | tool => Some tool
                                  end
                             else None) with
                      | Some tool => Some tool
                      | None => search_permission_tool t
                      end) by reflexivity.
    rewrite Hstep. clear Hstep.
    destruct (startswith (String c t) "permission to use ") eqn:Hp.
    + apply startswith_app in Hp. destruct Hp as [rest Hrest].
      rewrite Hrest.
      change (drop 18 ("permission to use " ++ rest)) with rest.
      destruct (take_word_split rest) as [Hw [rest' Hsplit]].
      destruct (take_word rest) as [|c' t'] eqn:Htw.
      * intros H. destruct (IH H) as (H1 & H2 & H3).
        rewrite <- Hrest. repeat split; try assumption.
        now apply contains_cons.
      * intros H. injection H as <-. split; [discriminate|].
        split; [exact Hw|].
        apply prefix_contains. rewrite Hsplit, <- string_app_assoc.
        apply prefix_app.
    + intros H. destruct (IH H) as (H1 & H2 & H3).
      repeat split; try assumption. now apply contains_cons.
Qed.

Lemma search_permission_tool_sound_witness :
  "Bash" <> EmptyString
  /\ all_word "Bash" = true
  /\ contains ("permission to use " ++ "Bash")
              "Claude needs your permission to use Bash (rm -rf build)" = true.
Proof.
  apply (search_permission_tool_sound
           "Claude needs your permission to use Bash (rm -rf build)" "Bash").
  reflexivity.
Defined.

(** ** The cache stays well formed *)





